(** * CARLO headless video recorder: colour translation and frame capture

    A shallow embedding of [src/video_visualizer.py]:

    - [convert_tk_color], the translator from Tk colour tokens to
      matplotlib colours;
    - the class [VideoVisualizer] ([create_window], [update_agents],
      [save_video], [save_gif], [close], [clear_frames]).

    Python values are modelled as follows.
    - [str] is a [string] of code points below 256; [None] where a token is
      optional is [option]'s [None].
    - [int] is [Z]; [float] is IEEE binary64, given by the Standard
      Library's executable [spec_float] with 53 bits of precision.
    - An exception is the [Raise] outcome of a computation; the state reached
      when it was raised is kept, as Python keeps it.
    - matplotlib, numpy and imageio are not part of the repository.  What the
      recorder asks of them is collected in the class [Backend]; the calls the
      recorder makes are recorded in a [Figure], which the backend rasterises.
      Module imports are taken to succeed. *)

From Stdlib Require Import ZArith NArith List String Ascii Bool Lia.
From Stdlib Require Import QArith Qround Qabs.
From Stdlib Require Import SpecFloat.
Import ListNotations.

Local Open Scope string_scope.
Local Open Scope list_scope.
Local Open Scope Z_scope.

(* ===================================================================== *)
(** * Python outcomes *)
(* ===================================================================== *)

Inductive exn : Type :=
| ValueError
| OverflowError
| ZeroDivisionError
| IndexError
| BackendError.

Inductive result (A : Type) : Type :=
| Ok (a : A)
| Raise (e : exn).

Arguments Ok {A} a.
Arguments Raise {A} e.

Definition rbind {A B : Type} (r : result A) (k : A -> result B) : result B :=
  match r with
  | Ok a => k a
  | Raise e => Raise e
  end.

Declare Scope py_scope.
Delimit Scope py_scope with py.
Notation "x <- c ;; k" := (rbind c (fun x => k))
  (at level 61, c at next level, right associativity) : py_scope.
Notation "c ;;; k" := (rbind c (fun _ => k))
  (at level 61, right associativity) : py_scope.

(** [raise_unless b e]: continue when [b] holds, raise [e] otherwise. *)
Definition raise_unless (b : bool) (e : exn) : result unit :=
  if b then Ok tt else Raise e.

(* ===================================================================== *)
(** * Python floats (binary64) and ints *)
(* ===================================================================== *)

Definition float : Type := spec_float.

Module Float64.

Definition prec : Z := 53.
Definition emax : Z := 1024.

(** The double nearest to an integer (ties to even); infinite when the
    integer is out of range. *)
Definition of_Z (z : Z) : float := binary_normalize prec emax z 0 false.

Definition add : float -> float -> float := SFadd prec emax.
Definition mul : float -> float -> float := SFmul prec emax.
Definition div : float -> float -> float := SFdiv prec emax.

Definition is_zero (x : float) : bool :=
  match x with S754_zero _ => true | _ => false end.

Definition is_finite (x : float) : bool :=
  match x with S754_zero _ | S754_finite _ _ _ => true | _ => false end.

Definition is_negative (x : float) : bool :=
  match x with S754_finite true _ _ | S754_infinity true => true | _ => false end.

(** The first integer that [float(n)] cannot represent: every
    [n >= 2^1024 - 2^970] rounds to [2^1024]. *)
Definition overflow_threshold : Z := 2 ^ 1024 - 2 ^ 970.

(** [float(n)] for an int [n]: OverflowError "int too large to convert to
    float" when the rounded value is not finite. *)
Definition of_int (n : Z) : result float :=
  if overflow_threshold <=? Z.abs n then Raise OverflowError else Ok (of_Z n).

(** [x / y] on floats: ZeroDivisionError on a zero divisor. *)
Definition truediv (x y : float) : result float :=
  if is_zero y then Raise ZeroDivisionError else Ok (div x y).

(** [n / y] with an int on the left: the int is converted first. *)
Definition int_truediv (n : Z) (y : float) : result float :=
  (x <- of_int n ;; truediv x y)%py.

(** [x * n] and [x / n] with an int on the right. *)
Definition mul_int (x : float) (n : Z) : result float :=
  (y <- of_int n ;; Ok (mul x y))%py.

Definition truediv_int (x : float) (n : Z) : result float :=
  (y <- of_int n ;; truediv x y)%py.

(** [int(x)]: truncation toward zero; OverflowError on an infinity,
    ValueError on a NaN. *)
Definition to_int (x : float) : result Z :=
  match x with
  | S754_zero _ => Ok 0
  | S754_infinity _ => Raise OverflowError
  | S754_nan => Raise ValueError
  | S754_finite s m e =>
      let a := match e with
               | Z0 => Zpos m
               | Zpos p => Zpos m * 2 ^ Zpos p
               | Zneg p => Zpos m / 2 ^ Zpos p
               end in
      Ok (if s then - a else a)
  end.

(** The exact rational value of a finite float (0 for the others). *)
Definition to_Q (x : float) : Q :=
  match x with
  | S754_finite s m e =>
      let a := match e with
               | Z0 => inject_Z (Zpos m)
               | Zpos p => inject_Z (Zpos m * 2 ^ Zpos p)
               | Zneg p => Qmake (Zpos m) (2 ^ p)
               end in
      if s then Qopp a else a
  | _ => 0%Q
  end.

End Float64.

(* ===================================================================== *)
(** * Python strings *)
(* ===================================================================== *)

Module Str.

Definition code (c : ascii) : N := N_of_ascii c.

(** [\d] and [str.isdigit] on code points below 256: the ASCII digits. *)
Definition is_digit (c : ascii) : bool :=
  (48 <=? code c)%N && (code c <=? 57)%N.

(** Upper-case letters below 256: A-Z, and U+00C0-U+00DE without the
    multiplication sign U+00D7.  Each lowers to the code point 32 above. *)
Definition is_upper (c : ascii) : bool :=
  ((65 <=? code c)%N && (code c <=? 90)%N)
  || ((192 <=? code c)%N && (code c <=? 222)%N && negb (code c =? 215)%N).

Definition lower_char (c : ascii) : ascii :=
  if is_upper c then ascii_of_N (code c + 32) else c.

(** [s.lower()] *)
Fixpoint lower (s : string) : string :=
  match s with
  | EmptyString => EmptyString
  | String c s' => String (lower_char c) (lower s')
  end.

(** The longest prefix of digits, and what follows it. *)
Fixpoint span_digits (s : string) : string * string :=
  match s with
  | EmptyString => (EmptyString, EmptyString)
  | String c s' =>
      if is_digit c
      then let (ds, rest) := span_digits s' in (String c ds, rest)
      else (EmptyString, s)
  end.

Fixpoint all_digits (s : string) : bool :=
  match s with
  | EmptyString => true
  | String c s' => is_digit c && all_digits s'
  end.

Definition digit_value (c : ascii) : Z := Z.of_N (code c) - 48.

Fixpoint int_of_digits_acc (acc : Z) (s : string) : Z :=
  match s with
  | EmptyString => acc
  | String c s' => int_of_digits_acc (10 * acc + digit_value c) s'
  end.

(** The value of a decimal literal. *)
Definition int_of_digits (s : string) : Z := int_of_digits_acc 0 s.

Definition digit_char (d : Z) : ascii := ascii_of_N (Z.to_N (48 + d)).

(** [str(n)] for [n >= 0]; the fuel bounds the number of digits. *)
Fixpoint decimal_fuel (fuel : nat) (n : Z) (acc : string) : string :=
  match fuel with
  | O => acc
  | S fuel' =>
      let acc' := String (digit_char (n mod 10)) acc in
      if n <? 10 then acc' else decimal_fuel fuel' (n / 10) acc'
  end.

Definition decimal (n : Z) : string :=
  decimal_fuel (S (Z.to_nat (Z.log2 n))) n EmptyString.

End Str.

(* ===================================================================== *)
(** * The Python runtime *)
(* ===================================================================== *)

(** [int_max_str_digits] is [sys.get_int_max_str_digits()]: the longest
    decimal literal [int()] converts, 0 for no limit (4300 by default from
    Python 3.11 on; older versions have no limit). *)
Class Runtime : Type := { int_max_str_digits : Z }.

(** Literals of at most 640 digits are never refused. *)
Definition str_digits_check_threshold : Z := 640.

(** [int(s)] on the text of a decimal literal.  Signs, blanks and
    underscores are left out: [convert_tk_color] passes the text matched by
    [\d+]. *)
Definition py_int `{Runtime} (s : string) : result Z :=
  let digits := Z.of_nat (String.length s) in
  if negb (Str.all_digits s) || (digits =? 0) then Raise ValueError
  else if (str_digits_check_threshold <? digits)
          && (0 <? int_max_str_digits)
          && (int_max_str_digits <? digits)
  then Raise ValueError
  else Ok (Str.int_of_digits s).

(* ===================================================================== *)
(** * Colour translator *)
(* ===================================================================== *)

(** A matplotlib colour as [convert_tk_color] returns it: a name (or any
    other string, such as a hex code) or a tuple of three floats. *)
Inductive mpl_color : Type :=
| Named (name : string)
| RGB (r g b : float).

(** [re.match(r'^gr[ae]y(\d+)$', s)]: group 1 when the pattern matches.
    [$] matches at the end of the string and before a newline that ends
    it. *)
Definition re_match_gray (s : string) : option string :=
  match s with
  | String c0 (String c1 (String c2 (String c3 rest))) =>
      if Ascii.eqb c0 "g" && Ascii.eqb c1 "r"
         && (Ascii.eqb c2 "a" || Ascii.eqb c2 "e") && Ascii.eqb c3 "y"
      then
        let (ds, tl) := Str.span_digits rest in
        if negb (String.length ds =? 0)%nat
           && (String.eqb tl "" || String.eqb tl (String "010" ""))
        then Some ds else None
      else None
  | _ => None
  end.

(** The dict [tk_to_mpl]. *)
Definition tk_to_mpl : list (string * string) :=
  [ ("gray", "gray");
    ("grey", "gray");
    ("lightgray", "lightgray");
    ("lightgrey", "lightgray");
    ("darkgray", "darkgray");
    ("darkgrey", "darkgray") ].

Fixpoint dict_get (k : string) (d : list (string * string)) : option string :=
  match d with
  | [] => None
  | (k', v) :: d' => if String.eqb k k' then Some v else dict_get k d'
  end.

Definition hundred : float := Float64.of_Z 100.

Definition convert_tk_color `{Runtime} (color : option string) : result mpl_color :=
  match color with
  | None => Ok (Named "blue")
  | Some color =>
      match re_match_gray (Str.lower color) with
      | Some group1 =>
          (n <- py_int group1 ;;
           level <- Float64.int_truediv n hundred ;;
           Ok (RGB level level level))%py
      | None =>
          match dict_get (Str.lower color) tk_to_mpl with
          | Some mpl => Ok (Named mpl)
          | None => Ok (Named color)
          end
      end
  end.

(** The channel value of intensity [n]: the float [n / 100.0]. *)
Definition gray_level (n : Z) : float := Float64.div (Float64.of_Z n) hundred.

(** [gray_level n] is a finite float in [0, 1] within 2^-54 of n/100. *)
Definition gray_level_accurate (n : Z) : bool :=
  Float64.is_finite (gray_level n)
  && Qle_bool 0 (Float64.to_Q (gray_level n))
  && Qle_bool (Float64.to_Q (gray_level n)) 1
  && Qle_bool (Qabs (Float64.to_Q (gray_level n) - (n # 100))) (1 # 2 ^ 54).

(* ===================================================================== *)
(** * numpy arrays of bytes *)
(* ===================================================================== *)

Module Np.

(** A [uint8] array in C order. *)
Record ndarray : Type := { shape : list nat; data : list Z }.

Definition size_of (sh : list nat) : nat := fold_right Nat.mul 1%nat sh.

(** [np.frombuffer(buf, dtype=np.uint8)] *)
Definition frombuffer (buf : list Z) : ndarray :=
  {| shape := [List.length buf]; data := buf |}.

(** [a.reshape(sh)] *)
Definition reshape (a : ndarray) (sh : list nat) : result ndarray :=
  if (size_of sh =? List.length (data a))%nat
  then Ok {| shape := sh; data := data a |}
  else Raise ValueError.

(** Of every run of [c] entries keep the first [k]; [i] is the position
    inside the current run. *)
Fixpoint keep_first (c k i : nat) (l : list Z) : list Z :=
  match l with
  | [] => []
  | v :: l' =>
      let rest := keep_first c k (if (S i =? c)%nat then O else S i) l' in
      if (i <? k)%nat then v :: rest else rest
  end.

(** [a[:, :, :k]] *)
Definition slice_last (a : ndarray) (k : nat) : result ndarray :=
  match shape a with
  | [h; w; c] =>
      Ok {| shape := [h; w; Nat.min k c]; data := keep_first c k 0 (data a) |}
  | _ => Raise IndexError
  end.

(** [a.copy()]: arrays are values here, the copy has the same contents. *)
Definition copy (a : ndarray) : ndarray := a.

(** [a[row, col]] of a three-dimensional array, as a list of channels. *)
Definition pixel (a : ndarray) (row col : nat) : list Z :=
  match shape a with
  | [_; w; c] => firstn c (skipn ((row * w + col) * c) (data a))
  | _ => []
  end.

End Np.

(* ===================================================================== *)
(** * Entities handed over by the world *)
(* ===================================================================== *)

Module Point.
Record t : Type := { x : float; y : float }.
End Point.

(** A colour token: a [str] or [None]. *)
Definition token : Type := option string.

(** The entity classes of the module [entities], which [update_agents] tells
    apart with [isinstance], and any other object.  The first component is
    the attribute [color], [None] when the object has no such attribute. *)
Inductive Entity : Type :=
| RingEntity (color : option token) (center : Point.t) (inner_radius outer_radius : float)
| CircleEntity (color : option token) (center : Point.t) (radius : float)
| RectangleEntity (color : option token) (corners : list Point.t)
| OtherObject (color : option token).

Definition color_attr (agent : Entity) : option token :=
  match agent with
  | RingEntity c _ _ _ | CircleEntity c _ _ | RectangleEntity c _ | OtherObject c => c
  end.

(* ===================================================================== *)
(** * matplotlib: figures and the rendering backend *)
(* ===================================================================== *)

(** Red, green, blue and alpha, eight bits each. *)
Definition rgba : Type := (Z * Z * Z * Z)%type.

Definition rgba_bytes (c : rgba) : list Z :=
  let '(r, g, b, a) := c in [r; g; b; a].

Definition rgb_bytes (c : rgba) : list Z :=
  let '(r, g, b, _) := c in [r; g; b].

Inductive Shape : Type :=
| Circle (xy : float * float) (radius : float)
| Polygon (xy : list (float * float)) (closed : bool).

(** A patch as its constructor receives it; [edgecolor] is [None] for
    ['none'] (no outline). *)
Record Patch : Type := {
  patch_shape : Shape;
  facecolor : mpl_color;
  edgecolor : option mpl_color
}.

(** A figure with its single axes: what [update_agents] has asked for. *)
Record Figure : Type := {
  number : nat;
  figsize : float * float;
  dpi : Z;
  xlim : float * float;
  ylim : float * float;
  ax_facecolor : mpl_color;
  aspect_equal : bool;
  axison : bool;
  subplotpars : Q * Q * Q * Q;    (* left, right, top, bottom *)
  patches : list Patch
}.

(** The part of matplotlib and imageio that is outside the repository. *)
Class Backend : Type := {
  (** [matplotlib.colors.to_rgba]; [None] stands for its ValueError. *)
  to_rgba : mpl_color -> option rgba;
  (** The patch constructors accept this geometry. *)
  shape_ok : Shape -> bool;
  (** The width and height, in pixels, of the canvas of a figure of this
      size in inches at this dpi.  The canvas has whole numbers of pixels;
      how the products of size and dpi are made whole is matplotlib's
      rule. *)
  canvas_size : float * float -> Z -> nat * nat;
  (** A renderer of this width and height can be allocated. *)
  renderer_ok : nat -> nat -> bool;
  (** The colour of the canvas before any patch is drawn. *)
  clear_color : Figure -> rgba;
  (** The patch, seen through the figure's view, paints pixel (row, col).
      A pixel is painted by a patch or left as it is: the smoothing of
      edges, which mixes the two colours in the pixels an outline passes
      through, is left aside. *)
  covers : Figure -> Shape -> nat -> nat -> bool;
  (** Compositing a patch colour over a canvas colour. *)
  over : rgba -> rgba -> rgba;
  (** [imageio.mimsave] can encode these frames to this path. *)
  mimsave_ok : string -> list Np.ndarray -> Z -> bool
}.

Module Mpl.
Section WithBackend.
Context `{Backend}.

(** [Figure.__init__] refuses sizes that are not finite or are negative. *)
Definition figsize_ok (w h : float) : bool :=
  Float64.is_finite w && Float64.is_finite h
  && negb (Float64.is_negative w) && negb (Float64.is_negative h).

(** The figure and axes that [plt.subplots(1, 1, figsize, dpi)] returns,
    with rcParams' defaults. *)
Definition new_figure (num : nat) (size : float * float) (d : Z) : Figure :=
  {| number := num;
     figsize := size;
     dpi := d;
     xlim := (Float64.of_Z 0, Float64.of_Z 1);
     ylim := (Float64.of_Z 0, Float64.of_Z 1);
     ax_facecolor := Named "white";
     aspect_equal := false;
     axison := true;
     subplotpars := (1 # 8, 9 # 10, 22 # 25, 11 # 100)%Q;
     patches := [] |}.

Definition with_xlim (fig : Figure) (l : float * float) : Figure :=
  {| number := number fig; figsize := figsize fig; dpi := dpi fig;
     xlim := l; ylim := ylim fig; ax_facecolor := ax_facecolor fig;
     aspect_equal := aspect_equal fig; axison := axison fig;
     subplotpars := subplotpars fig; patches := patches fig |}.

Definition with_ylim (fig : Figure) (l : float * float) : Figure :=
  {| number := number fig; figsize := figsize fig; dpi := dpi fig;
     xlim := xlim fig; ylim := l; ax_facecolor := ax_facecolor fig;
     aspect_equal := aspect_equal fig; axison := axison fig;
     subplotpars := subplotpars fig; patches := patches fig |}.

Definition with_facecolor (fig : Figure) (c : mpl_color) : Figure :=
  {| number := number fig; figsize := figsize fig; dpi := dpi fig;
     xlim := xlim fig; ylim := ylim fig; ax_facecolor := c;
     aspect_equal := aspect_equal fig; axison := axison fig;
     subplotpars := subplotpars fig; patches := patches fig |}.

Definition with_patches (fig : Figure) (ps : list Patch) : Figure :=
  {| number := number fig; figsize := figsize fig; dpi := dpi fig;
     xlim := xlim fig; ylim := ylim fig; ax_facecolor := ax_facecolor fig;
     aspect_equal := aspect_equal fig; axison := axison fig;
     subplotpars := subplotpars fig; patches := ps |}.

(** [ax.set_xlim(lo, hi)], [ax.set_ylim(lo, hi)]: "Axis limits cannot be
    NaN or Inf".  The figure keeps the limits as they were asked for; how
    the backend widens an empty interval is part of its view. *)
Definition set_xlim (fig : Figure) (lo hi : float) : result Figure :=
  if Float64.is_finite lo && Float64.is_finite hi
  then Ok (with_xlim fig (lo, hi)) else Raise ValueError.

Definition set_ylim (fig : Figure) (lo hi : float) : result Figure :=
  if Float64.is_finite lo && Float64.is_finite hi
  then Ok (with_ylim fig (lo, hi)) else Raise ValueError.

(** [ax.set_facecolor(c)] *)
Definition set_facecolor (fig : Figure) (c : mpl_color) : result Figure :=
  match to_rgba c with
  | Some _ => Ok (with_facecolor fig c)
  | None => Raise ValueError
  end.

(** [ax.set_aspect('equal')] *)
Definition set_aspect_equal (fig : Figure) : Figure :=
  {| number := number fig; figsize := figsize fig; dpi := dpi fig;
     xlim := xlim fig; ylim := ylim fig; ax_facecolor := ax_facecolor fig;
     aspect_equal := true; axison := axison fig;
     subplotpars := subplotpars fig; patches := patches fig |}.

(** [ax.axis('off')] *)
Definition axis_off (fig : Figure) : Figure :=
  {| number := number fig; figsize := figsize fig; dpi := dpi fig;
     xlim := xlim fig; ylim := ylim fig; ax_facecolor := ax_facecolor fig;
     aspect_equal := aspect_equal fig; axison := false;
     subplotpars := subplotpars fig; patches := patches fig |}.

(** [plt.subplots_adjust(left, right, top, bottom)] *)
Definition subplots_adjust (fig : Figure) (left right top bottom : Q) : Figure :=
  {| number := number fig; figsize := figsize fig; dpi := dpi fig;
     xlim := xlim fig; ylim := ylim fig; ax_facecolor := ax_facecolor fig;
     aspect_equal := aspect_equal fig; axison := axison fig;
     subplotpars := (left, right, top, bottom); patches := patches fig |}.

(** [MplCircle(xy, radius, facecolor=c, edgecolor='none')] *)
Definition MplCircle (xy : float * float) (radius : float) (c : mpl_color)
  : result Patch :=
  match to_rgba c with
  | None => Raise ValueError
  | Some _ =>
      if shape_ok (Circle xy radius)
      then Ok {| patch_shape := Circle xy radius; facecolor := c; edgecolor := None |}
      else Raise BackendError
  end.

(** [MplPolygon(xy, facecolor=c, edgecolor='none', closed=True)] *)
Definition MplPolygon (xy : list (float * float)) (c : mpl_color) : result Patch :=
  match to_rgba c with
  | None => Raise ValueError
  | Some _ =>
      if shape_ok (Polygon xy true)
      then Ok {| patch_shape := Polygon xy true; facecolor := c; edgecolor := None |}
      else Raise BackendError
  end.

(** [ax.add_patch(p)]: patches are drawn in the order they were added. *)
Definition add_patch (fig : Figure) (p : Patch) : Figure :=
  with_patches fig (patches fig ++ [p]).

(** [fig.canvas.get_width_height()]: the size of the canvas, which the
    figure's size in inches and its dpi determine. *)
Definition get_width_height (fig : Figure) : nat * nat :=
  canvas_size (figsize fig) (dpi fig).

(** One patch painted over a canvas colour at pixel (row, col). *)
Definition paint_patch (fig : Figure) (row col : nat) (acc : rgba) (p : Patch) : rgba :=
  if covers fig (patch_shape p) row col
  then match to_rgba (facecolor p) with
       | Some c => over c acc
       | None => acc
       end
  else acc.

(** The colour of pixel (row, col) once the figure is drawn: the patches
    are painted in order over the cleared canvas. *)
Definition paint (fig : Figure) (row col : nat) : rgba :=
  fold_left (paint_patch fig row col) (patches fig) (clear_color fig).

(** The canvas of [w] by [h] pixels in row-major order, four bytes a
    pixel. *)
Definition render (fig : Figure) (w h : nat) : list Z :=
  flat_map (fun row => flat_map (fun col => rgba_bytes (paint fig row col)) (seq 0 w))
           (seq 0 h).

(** [fig.canvas.draw()]: a renderer of the size of the canvas is allocated
    and the figure is drawn into it. *)
Definition canvas_draw (fig : Figure) : result unit :=
  let wh := get_width_height fig in
  raise_unless (renderer_ok (fst wh) (snd wh)) BackendError.

(** [fig.canvas.buffer_rgba()] once the canvas is drawn. *)
Definition buffer_rgba (fig : Figure) : list Z :=
  let wh := get_width_height fig in render fig (fst wh) (snd wh).

End WithBackend.
End Mpl.

(* ===================================================================== *)
(** * The recorder and its surroundings *)
(* ===================================================================== *)

(** The attributes of a [VideoVisualizer].  [bg_color] is [None] until
    [create_window] has stored the attribute.  [width] and [height] are
    floats, as annotated.  An int given for them, as [example_rendervid.py]
    does, behaves as the float of the same value as long as the products
    with [ppm] stay below 2^53; beyond that Python multiplies ints exactly
    where floats round or overflow, and the model does not apply. *)
Record VideoVisualizer : Type := {
  width : float;
  height : float;
  ppm : Z;
  frames : list Np.ndarray;
  window_created : bool;
  bg_color : option token
}.

(** The recorder together with what its methods act on: pyplot's registry of
    open figures, standard output and the files written by imageio (each
    with the frames and frame rate it was encoded from). *)
Record World : Type := {
  self : VideoVisualizer;
  open_figures : list nat;
  stdout : list string;
  files : list (string * (list Np.ndarray * Z))
}.

Definition with_self (w : World) (s : VideoVisualizer) : World :=
  {| self := s; open_figures := open_figures w; stdout := stdout w; files := files w |}.

Definition with_open_figures (w : World) (l : list nat) : World :=
  {| self := self w; open_figures := l; stdout := stdout w; files := files w |}.

Definition with_frames (s : VideoVisualizer) (fs : list Np.ndarray) : VideoVisualizer :=
  {| width := width s; height := height s; ppm := ppm s; frames := fs;
     window_created := window_created s; bg_color := bg_color s |}.

Definition with_window_created (s : VideoVisualizer) (b : bool) : VideoVisualizer :=
  {| width := width s; height := height s; ppm := ppm s; frames := frames s;
     window_created := b; bg_color := bg_color s |}.

Definition with_bg_color (s : VideoVisualizer) (c : option token) : VideoVisualizer :=
  {| width := width s; height := height s; ppm := ppm s; frames := frames s;
     window_created := window_created s; bg_color := c |}.

(** A method: it ends normally or raises, and leaves a world either way. *)
Definition M (A : Type) : Type := World -> result A * World.

Definition ret {A : Type} (a : A) : M A := fun w => (Ok a, w).

Definition bind {A B : Type} (m : M A) (k : A -> M B) : M B :=
  fun w => match m w with
           | (Ok a, w') => k a w'
           | (Raise e, w') => (Raise e, w')
           end.

Definition lift {A : Type} (r : result A) : M A := fun w => (r, w).

Declare Scope m_scope.
Delimit Scope m_scope with M.
Notation "x <- c ;; k" := (bind c (fun x => k))
  (at level 61, c at next level, right associativity) : m_scope.
Notation "c ;;; k" := (bind c (fun _ => k))
  (at level 61, right associativity) : m_scope.

Definition get_self : M VideoVisualizer := fun w => (Ok (self w), w).

Definition set_self (s : VideoVisualizer) : M unit := fun w => (Ok tt, with_self w s).

(** [print(line)] *)
Definition print (line : string) : M unit :=
  fun w => (Ok tt, {| self := self w; open_figures := open_figures w;
                      stdout := stdout w ++ [line]; files := files w |}).

Section Recorder.
Context `{Runtime} `{Backend}.

(** [plt.subplots(1, 1, figsize=size, dpi=d)]: the new figure gets the
    number after the largest one in use and is registered as open. *)
Definition plt_subplots (size : float * float) (d : Z) : M Figure :=
  fun w =>
    if Mpl.figsize_ok (fst size) (snd size)
    then let num := S (list_max (open_figures w)) in
         (Ok (Mpl.new_figure num size d),
          with_open_figures w (open_figures w ++ [num]))
    else (Raise ValueError, w).

(** [plt.close(fig)] *)
Definition plt_close (fig : Figure) : M unit :=
  fun w => (Ok tt,
            with_open_figures w
              (filter (fun n => negb (n =? number fig)%nat) (open_figures w))).

(** [imageio.mimsave(filename, frames, fps=fps)] *)
Definition imageio_mimsave (filename : string) (fs : list Np.ndarray) (fps : Z)
  : M unit :=
  fun w =>
    if mimsave_ok filename fs fps
    then (Ok tt, {| self := self w; open_figures := open_figures w;
                    stdout := stdout w;
                    files := files w ++ [(filename, (fs, fps))] |})
    else (Raise BackendError, w).

(** [VideoVisualizer(width, height, ppm)] *)
Definition init (width0 height0 : float) (ppm0 : Z) : VideoVisualizer :=
  {| width := width0; height := height0; ppm := ppm0;
     frames := []; window_created := false; bg_color := None |}.

(** [create_window(bg_color)]; the argument defaults to ['gray']. *)
Definition create_window (bg : token) : M unit :=
  (s <- get_self ;;
   set_self (with_window_created (with_bg_color s (Some bg)) true))%M.

(** The coordinates of a point as a pair. *)
Definition xy_of (p : Point.t) : float * float := (Point.x p, Point.y p).

(** The body of the loop over the agents. *)
Definition draw_agent (bg_color : mpl_color) (fig : Figure) (agent : Entity)
  : result Figure :=
  (color <- convert_tk_color
              (match color_attr agent with Some c => c | None => Some "blue" end) ;;
   match agent with
   | RingEntity _ center inner_radius outer_radius =>
       outer <- Mpl.MplCircle (xy_of center) outer_radius color ;;
       let fig := Mpl.add_patch fig outer in
       inner <- Mpl.MplCircle (xy_of center) inner_radius bg_color ;;
       Ok (Mpl.add_patch fig inner)
   | CircleEntity _ center radius =>
       circle <- Mpl.MplCircle (xy_of center) radius color ;;
       Ok (Mpl.add_patch fig circle)
   | RectangleEntity _ corners =>
       poly <- Mpl.MplPolygon (map xy_of corners) color ;;
       Ok (Mpl.add_patch fig poly)
   | OtherObject _ => Ok fig
   end)%py.

(** [for agent in agents: ...] *)
Fixpoint draw_agents (bg_color : mpl_color) (fig : Figure) (agents : list Entity)
  : result Figure :=
  match agents with
  | [] => Ok fig
  | agent :: rest =>
      (fig' <- draw_agent bg_color fig agent ;; draw_agents bg_color fig' rest)%py
  end.

(** Everything [update_agents] does to the figure between creating it and
    drawing the canvas. *)
Definition compose_figure (s : VideoVisualizer) (agents : list Entity) (fig : Figure)
  : result Figure :=
  (fig <- Mpl.set_xlim fig (Float64.of_Z 0) (width s) ;;
   fig <- Mpl.set_ylim fig (Float64.of_Z 0) (height s) ;;
   bg_color <- convert_tk_color
                 (match bg_color s with Some c => c | None => Some "gray" end) ;;
   fig <- Mpl.set_facecolor fig bg_color ;;
   let fig := Mpl.set_aspect_equal fig in
   let fig := Mpl.axis_off fig in
   let fig := Mpl.subplots_adjust fig 0 1 1 0 in
   draw_agents bg_color fig agents)%py.

(** The conversion of the drawn canvas to the frame that is stored. *)
Definition grab_frame (fig : Figure) : result Np.ndarray :=
  (Mpl.canvas_draw fig ;;;
   let frame := Np.frombuffer (Mpl.buffer_rgba fig) in
   let wh := Mpl.get_width_height fig in
   frame <- Np.reshape frame [snd wh; fst wh; 4%nat] ;;
   frame <- Np.slice_last frame 3 ;;
   Ok (Np.copy frame))%py.

(** [self.width * self.ppm / 100] *)
Definition inches (extent : float) (ppm0 : Z) : result float :=
  (pixels <- Float64.mul_int extent ppm0 ;; Float64.truediv_int pixels 100)%py.

Definition update_agents (agents : list Entity) : M unit :=
  (s <- get_self ;;
   fig_width <- lift (inches (width s) (ppm s)) ;;
   fig_height <- lift (inches (height s) (ppm s)) ;;
   fig <- plt_subplots (fig_width, fig_height) 100 ;;
   fig <- lift (compose_figure s agents fig) ;;
   frame <- lift (grab_frame fig) ;;
   set_self (with_frames s (frames s ++ [frame])) ;;;
   plt_close fig)%M.

(** [save_video(filename, fps)]; [fps] defaults to 24. *)
Definition save_video (filename : string) (fps : Z) : M unit :=
  (s <- get_self ;;
   match frames s with
   | [] => print "No frames to save!"
   | _ :: _ =>
       imageio_mimsave filename (frames s) fps ;;;
       print ("Saved " ++ Str.decimal (Z.of_nat (List.length (frames s)))
              ++ " frames to " ++ filename)
   end)%M.

(** [save_gif(filename, fps)]; [fps] defaults to 24. *)
Definition save_gif (filename : string) (fps : Z) : M unit :=
  (s <- get_self ;;
   match frames s with
   | [] => print "No frames to save!"
   | _ :: _ =>
       imageio_mimsave filename (frames s) fps ;;;
       print ("Saved " ++ Str.decimal (Z.of_nat (List.length (frames s)))
              ++ " frames to " ++ filename)
   end)%M.

Definition close : M unit :=
  (s <- get_self ;; set_self (with_window_created s false))%M.

Definition clear_frames : M unit :=
  (s <- get_self ;; set_self (with_frames s []))%M.

(** A sequence of captures, one after the other, stopping at the first
    that raises. *)
Fixpoint captures (steps : list (list Entity)) : M unit :=
  match steps with
  | [] => ret tt
  | agents :: rest => (update_agents agents ;;; captures rest)%M
  end.

End Recorder.

(* ===================================================================== *)
(** * A reference backend *)
(* ===================================================================== *)

(** An idealised renderer on which the model can be run: a pixel belongs to
    a patch when its centre does, colours are opaque and come from a short
    table of names or from float triples in [0, 1] (matplotlib refuses
    triples outside that range), and, as in matplotlib, the axes background
    is painted only while the axes are on; with the axes off the canvas
    shows the figure's white.  A side of the canvas has
    [int(size * dpi + 1e-8)] pixels: the product is cut down to a whole
    number, with an allowance for a product that rounding has left just
    short of one.  Edges are not smoothed. *)
Module Ideal.

Definition named_colors : list (string * rgba) :=
  [ ("white", (255, 255, 255, 255));
    ("black", (0, 0, 0, 255));
    ("red", (255, 0, 0, 255));
    ("green", (0, 128, 0, 255));
    ("blue", (0, 0, 255, 255));
    ("gray", (128, 128, 128, 255));
    ("lightgray", (211, 211, 211, 255));
    ("darkgray", (169, 169, 169, 255)) ].

Fixpoint lookup (k : string) (d : list (string * rgba)) : option rgba :=
  match d with
  | [] => None
  | (k', v) :: d' => if String.eqb k k' then Some v else lookup k d'
  end.

Definition unit_interval (c : float) : bool :=
  Float64.is_finite c
  && Qle_bool 0 (Float64.to_Q c) && Qle_bool (Float64.to_Q c) 1.

(** A channel in [0, 1] as a byte, rounded to nearest. *)
Definition channel (c : float) : Z :=
  Qfloor (Float64.to_Q c * 255 + (1 # 2))%Q.

Definition resolve (c : mpl_color) : option rgba :=
  match c with
  | Named name => lookup name named_colors
  | RGB r g b =>
      if unit_interval r && unit_interval g && unit_interval b
      then Some (channel r, channel g, channel b, 255)
      else None
  end.

Definition finite_pair (p : float * float) : bool :=
  Float64.is_finite (fst p) && Float64.is_finite (snd p).

Definition accepts (sh : Shape) : bool :=
  match sh with
  | Circle xy radius => finite_pair xy && Float64.is_finite radius
  | Polygon xy _ => negb (List.length xy =? 0)%nat && forallb finite_pair xy
  end.

Definition allocates (w h : nat) : bool :=
  (0 <? w)%nat && (0 <? h)%nat && (Z.of_nat w <? 65536) && (Z.of_nat h <? 65536).

Definition base_color (fig : Figure) : rgba :=
  if axison fig
  then match resolve (ax_facecolor fig) with
       | Some c => c
       | None => (255, 255, 255, 255)
       end
  else (255, 255, 255, 255).

(** The allowance [1e-8]. *)
Definition allowance : float :=
  Float64.div (Float64.of_Z 1) (Float64.of_Z 100000000).

(** The pixels along a side of [size] inches, 0 when the product is not a
    number. *)
Definition side (size : float) (d : Z) : nat :=
  match Float64.to_int
          (Float64.add (Float64.mul size (Float64.of_Z d)) allowance) with
  | Ok n => Z.to_nat n
  | Raise _ => O
  end.

Definition canvas (size : float * float) (d : Z) : nat * nat :=
  (side (fst size) d, side (snd size) d).

(** The data coordinates of the centre of pixel (row, col): the axes take
    the part of the canvas given by the subplot parameters, row 0 is the
    top row.  [None] outside the axes, where patches are clipped. *)
Definition pixel_centre (fig : Figure) (row col : nat) : option (Q * Q) :=
  let '(w, h) := canvas (figsize fig) (dpi fig) in
  let '(lft, rgt, top, bot) := subplotpars fig in
  let u := ((inject_Z (Z.of_nat col) + (1 # 2)) / inject_Z (Z.of_nat w))%Q in
  let v := (1 - (inject_Z (Z.of_nat row) + (1 # 2)) / inject_Z (Z.of_nat h))%Q in
  if Qle_bool lft u && Qle_bool u rgt && Qle_bool bot v && Qle_bool v top
  then
    let x0 := Float64.to_Q (fst (xlim fig)) in
    let x1 := Float64.to_Q (snd (xlim fig)) in
    let y0 := Float64.to_Q (fst (ylim fig)) in
    let y1 := Float64.to_Q (snd (ylim fig)) in
    Some ((x0 + (u - lft) / (rgt - lft) * (x1 - x0))%Q,
          (y0 + (v - bot) / (top - bot) * (y1 - y0))%Q)
  else None.

Definition Qlt_bool (a b : Q) : bool := negb (Qle_bool b a).

(** Whether the ray from [p] to the right crosses the edge from [a] to
    [b]. *)
Definition crosses (p a b : Q * Q) : bool :=
  let '(px, py) := p in
  let '(ax, ay) := a in
  let '(bx, by_) := b in
  negb (Bool.eqb (Qlt_bool py ay) (Qlt_bool py by_))
  && Qlt_bool px (ax + (py - ay) * (bx - ax) / (by_ - ay))%Q.

Fixpoint crossings (p : Q * Q) (first prev : Q * Q) (rest : list (Q * Q)) : bool :=
  match rest with
  | [] => crosses p prev first
  | q :: rest' => xorb (crosses p prev q) (crossings p first q rest')
  end.

Definition to_Q2 (p : float * float) : Q * Q :=
  (Float64.to_Q (fst p), Float64.to_Q (snd p)).

Definition inside (fig : Figure) (sh : Shape) (row col : nat) : bool :=
  match pixel_centre fig row col with
  | None => false
  | Some (px, py) =>
      match sh with
      | Circle xy radius =>
          let '(cx, cy) := to_Q2 xy in
          let r := Float64.to_Q radius in
          Qle_bool ((px - cx) * (px - cx) + (py - cy) * (py - cy)) (r * r)
      | Polygon xy _ =>
          match map to_Q2 xy with
          | [] => false
          | q :: rest => crossings (px, py) q q rest
          end
      end
  end.

(** Source over destination, channel by channel. *)
Definition blend (src dst : rgba) : rgba :=
  let '(sr, sg, sb, sa) := src in
  let '(dr, dg, db, da) := dst in
  let mix s d := (s * sa + d * (255 - sa)) / 255 in
  (mix sr dr, mix sg dg, mix sb db, sa + da * (255 - sa) / 255).

(** Paths ending in [.mp4] or [.gif] can be written, when there is a
    frame and the rate is positive. *)
Definition has_suffix (suffix s : string) : bool :=
  let n := String.length s in
  let k := String.length suffix in
  (k <=? n)%nat && String.eqb (String.substring (n - k) k s) suffix.

Definition writable (filename : string) (fs : list Np.ndarray) (fps : Z) : bool :=
  (has_suffix ".mp4" filename || has_suffix ".gif" filename)
  && negb (List.length fs =? 0)%nat && (0 <? fps).

Definition backend : Backend :=
  {| to_rgba := resolve;
     shape_ok := accepts;
     canvas_size := canvas;
     renderer_ok := allocates;
     clear_color := base_color;
     covers := inside;
     over := blend;
     mimsave_ok := writable |}.

(** Python from 3.11 on, with its default limit on decimal literals. *)
Definition runtime : Runtime := {| int_max_str_digits := 4300 |}.

End Ideal.

(* ===================================================================== *)
(** * What a capture computes *)
(* ===================================================================== *)

Section CaptureFunctions.
Context `{Runtime} `{Backend}.

(** The figure that [update_agents] has built when it draws the canvas,
    as a function of the recorder, of the number given to the figure and
    of the agents. *)
Definition figure_of (s : VideoVisualizer) (num : nat) (agents : list Entity)
  : result Figure :=
  (fig_width <- inches (width s) (ppm s) ;;
   fig_height <- inches (height s) (ppm s) ;;
   raise_unless (Mpl.figsize_ok fig_width fig_height) ValueError ;;;
   compose_figure s agents (Mpl.new_figure num (fig_width, fig_height) 100))%py.

(** The frame that [update_agents] stores. *)
Definition frame_of (s : VideoVisualizer) (num : nat) (agents : list Entity)
  : result Np.ndarray :=
  (fig <- figure_of s num agents ;; grab_frame fig)%py.

(** The world after [close()]. *)
Definition closed (w : World) : World :=
  with_self w (with_window_created (self w) false).

(** The world after a line has been printed. *)
Definition printed (w : World) (line : string) : World :=
  {| self := self w; open_figures := open_figures w;
     stdout := stdout w ++ [line]; files := files w |}.

(** The world after [clear_frames()]. *)
Definition cleared (w : World) : World := with_self w (with_frames (self w) []).

(** The world after [create_window(bg)]. *)
Definition windowed (w : World) (bg : token) : World :=
  with_self w (with_window_created (with_bg_color (self w) (Some bg)) true).

(** Whether [plt.subplots] hands [update_agents] a figure. *)
Definition figure_created (s : VideoVisualizer) : bool :=
  match inches (width s) (ppm s), inches (height s) (ppm s) with
  | Ok fig_width, Ok fig_height => Mpl.figsize_ok fig_width fig_height
  | _, _ => false
  end.

(** The shape of the frames of a recorder: the rows and columns of the
    canvas of a figure of [width * ppm / 100] by [height * ppm / 100] inches
    at 100 dpi, and three channels. *)
Definition frame_shape (s : VideoVisualizer) : result (list nat) :=
  (fig_width <- inches (width s) (ppm s) ;;
   fig_height <- inches (height s) (ppm s) ;;
   let wh := canvas_size (fig_width, fig_height) 100 in
   Ok [snd wh; fst wh; 3%nat])%py.

(** The pixels of the drawn canvas, row by row. *)
Definition canvas_pixels (fig : Figure) (w h : nat) : list rgba :=
  flat_map (fun row => map (Mpl.paint fig row) (seq 0 w)) (seq 0 h).

(** Two figures that differ at most in their patches. *)
Definition same_axes (f g : Figure) : Prop :=
  number f = number g /\ figsize f = figsize g /\ dpi f = dpi g
  /\ xlim f = xlim g /\ ylim f = ylim g /\ ax_facecolor f = ax_facecolor g
  /\ aspect_equal f = aspect_equal g /\ axison f = axison g
  /\ subplotpars f = subplotpars g.

(** The two disks [update_agents] draws for a ring. *)
Definition ring_outer (center : Point.t) (outer_radius : float) (color : mpl_color)
  : Patch :=
  {| patch_shape := Circle (xy_of center) outer_radius;
     facecolor := color; edgecolor := None |}.

Definition ring_inner (center : Point.t) (inner_radius : float) (bg : mpl_color)
  : Patch :=
  {| patch_shape := Circle (xy_of center) inner_radius;
     facecolor := bg; edgecolor := None |}.

(** An agent that the loop of [update_agents] draws without raising: its
    colour token translates to a colour the backend knows, and the backend
    accepts its geometry. *)
Definition drawable (bg : mpl_color) (agent : Entity) : Prop :=
  exists color,
    convert_tk_color (match color_attr agent with Some c => c | None => Some "blue" end)
    = Ok color
    /\ match agent with
       | RingEntity _ center inner_radius outer_radius =>
           to_rgba color <> None
           /\ shape_ok (Circle (xy_of center) outer_radius) = true
           /\ to_rgba bg <> None
           /\ shape_ok (Circle (xy_of center) inner_radius) = true
       | CircleEntity _ center radius =>
           to_rgba color <> None /\ shape_ok (Circle (xy_of center) radius) = true
       | RectangleEntity _ corners =>
           to_rgba color <> None
           /\ shape_ok (Polygon (map xy_of corners) true) = true
       | OtherObject _ => True
       end.

(** No patch of the list paints pixel (row, col). *)
Definition uncovered (fig : Figure) (ps : list Patch) (row col : nat) : Prop :=
  forall p, In p ps -> covers fig (patch_shape p) row col = false.

(** A colour that hides whatever it is painted over. *)
Definition opaque (c : rgba) : Prop := forall under : rgba, over c under = c.

End CaptureFunctions.

(* ===================================================================== *)
(** * Sessions *)
(* ===================================================================== *)

(** A call of one of the recorder's methods. *)
Inductive Call : Type :=
| CreateWindow (bg : token)
| UpdateAgents (agents : list Entity)
| SaveVideo (filename : string) (fps : Z)
| SaveGif (filename : string) (fps : Z)
| Close
| ClearFrames.

Section Sessions.
Context `{Runtime} `{Backend}.

Definition call (c : Call) : M unit :=
  match c with
  | CreateWindow bg => create_window bg
  | UpdateAgents agents => update_agents agents
  | SaveVideo filename fps => save_video filename fps
  | SaveGif filename fps => save_gif filename fps
  | Close => close
  | ClearFrames => clear_frames
  end.

(** The world a call leaves, whether it returned or raised. *)
Definition after (w : World) (c : Call) : World := snd (call c w).

(** The world a sequence of calls leaves, for a caller that goes on after
    an exception. *)
Definition session (w : World) (cs : list Call) : World := fold_left after cs w.

Definition is_clear (c : Call) : bool :=
  match c with ClearFrames => true | _ => false end.

Definition is_capture (c : Call) : bool :=
  match c with UpdateAgents _ => true | _ => false end.

(** A frame of the recorder's shape whose data fill that shape. *)
Definition well_shaped (s : VideoVisualizer) (frame : Np.ndarray) : Prop :=
  frame_shape s = Ok (Np.shape frame)
  /\ List.length (Np.data frame) = Np.size_of (Np.shape frame).

(** The shape a circle or rectangle entity is drawn with. *)
Definition solid_shape (agent : Entity) : option Shape :=
  match agent with
  | CircleEntity _ center radius => Some (Circle (xy_of center) radius)
  | RectangleEntity _ corners => Some (Polygon (map xy_of corners) true)
  | _ => None
  end.

(** The agent with its colour attribute set. *)
Definition recolor (c : option token) (agent : Entity) : Entity :=
  match agent with
  | RingEntity _ center inner_radius outer_radius =>
      RingEntity c center inner_radius outer_radius
  | CircleEntity _ center radius => CircleEntity c center radius
  | RectangleEntity _ corners => RectangleEntity c corners
  | OtherObject _ => OtherObject c
  end.

(** The agent with 'blue' written out where it has no colour. *)
Definition fill_default (agent : Entity) : Entity :=
  match color_attr agent with
  | None | Some None => recolor (Some (Some "blue")) agent
  | Some (Some _) => agent
  end.

End Sessions.

(** [k] zeros. *)
Fixpoint zeros (k : nat) : string :=
  match k with
  | O => EmptyString
  | S k' => String "0" (zeros k')
  end.

(** A line feed. *)
Definition newline : string := String "010" EmptyString.

(* ===================================================================== *)
(** * Small worlds to run the model on *)
(* ===================================================================== *)

Module Demo.

Definition F (z : Z) : float := Float64.of_Z z.

Definition half : float := Float64.div (F 1) (F 2).

Definition three_quarters : float := Float64.div (F 3) (F 4).

Definition at_ (x y : float) : Point.t := {| Point.x := x; Point.y := y |}.

Definition world_of (s : VideoVisualizer) : World :=
  {| self := s; open_figures := []; stdout := []; files := [] |}.

(** A world of 4 by 4 metres at 2 pixels a metre: frames of 8 by 8. *)
Definition small_world : World := world_of (init (F 4) (F 4) 2).

(** A world of 2.5 by 2.5 metres at 3 pixels a metre. *)
Definition fractional_world : World :=
  world_of (init (Float64.div (F 5) (F 2)) (Float64.div (F 5) (F 2)) 3).

(** A red ring around the middle of the small world and a disk inside its
    hole, as the circular road of [example_rendervid.py] has a ring
    building around a circle building.  The disk has a radius of 1.5 pixels:
    the four pixels around the middle lie in it entirely. *)
Definition ring : Entity :=
  RingEntity (Some (Some "red")) (at_ (F 2) (F 2)) (F 1) (F 2).

Definition disk : Entity :=
  CircleEntity (Some (Some "gray80")) (at_ (F 2) (F 2)) three_quarters.

Definition road : list Entity := [ring; disk].

(** A disk whose colour token translates to channels of 1.5. *)
Definition bright_disk : Entity :=
  CircleEntity (Some (Some "gray150")) (at_ (F 2) (F 2)) half.

(** The small world after the road has been captured twice. *)
Definition after_two_captures : World :=
  snd (@captures Ideal.runtime Ideal.backend [road; road] small_world).

End Demo.

(* ===================================================================== *)
(** * Strings: lower-casing, digits, decimal literals *)
(* ===================================================================== *)

Section StrFacts.

Lemma append_assoc (s t u : string) :
  ((s ++ t) ++ u)%string = (s ++ (t ++ u))%string.
Proof. induction s as [|c s IH]; simpl; [reflexivity|]. now rewrite IH. Qed.

Lemma lower_app (s t : string) :
  Str.lower (s ++ t) = (Str.lower s ++ Str.lower t)%string.
Proof.
  induction s as [|c s IH]; simpl; [reflexivity|].
  now rewrite IH.
Qed.

(** A digit is not an upper-case letter. *)
Lemma digit_not_upper (c : ascii) : Str.is_digit c = true -> Str.is_upper c = false.
Proof.
  unfold Str.is_digit, Str.is_upper.
  intros Hd. apply andb_prop in Hd as [_ H57]. apply N.leb_le in H57.
  apply orb_false_iff; split.
  - apply andb_false_iff; left. apply N.leb_gt. lia.
  - apply andb_false_iff; left. apply andb_false_iff; left. apply N.leb_gt. lia.
Qed.

Lemma lower_digits (s : string) : Str.all_digits s = true -> Str.lower s = s.
Proof.
  induction s as [|c s IH]; simpl; [reflexivity|].
  intros Hd. apply andb_prop in Hd as [Hc Hs].
  unfold Str.lower_char. rewrite (digit_not_upper c Hc). now rewrite IH.
Qed.

Lemma span_all_digits (s : string) :
  Str.all_digits s = true -> Str.span_digits s = (s, EmptyString).
Proof.
  induction s as [|c s IH]; simpl; [reflexivity|].
  intros Hd. apply andb_prop in Hd as [Hc Hs].
  now rewrite Hc, (IH Hs).
Qed.

(** What [span_digits] splits off is made of digits. *)
Lemma span_digits_all (s : string) : Str.all_digits (fst (Str.span_digits s)) = true.
Proof.
  induction s as [|c s IH]; simpl; [reflexivity|].
  destruct (Str.is_digit c) eqn:Hc; [|reflexivity].
  destruct (Str.span_digits s) as [ds rest]. simpl in *. now rewrite Hc.
Qed.

Lemma all_digits_app (s t : string) :
  Str.all_digits (s ++ t) = Str.all_digits s && Str.all_digits t.
Proof.
  induction s as [|c s IH]; simpl; [reflexivity|].
  now rewrite IH, andb_assoc.
Qed.

Lemma string_length_app (s t : string) :
  String.length (s ++ t) = (String.length s + String.length t)%nat.
Proof. induction s as [|c s IH]; simpl; [reflexivity|]. now rewrite IH. Qed.

Lemma int_of_digits_acc_app (s t : string) (acc : Z) :
  Str.int_of_digits_acc acc (s ++ t)
  = Str.int_of_digits_acc (Str.int_of_digits_acc acc s) t.
Proof.
  revert acc. induction s as [|c s IH]; intros acc; simpl; [reflexivity|].
  apply IH.
Qed.

(** The ten digit characters. *)
Lemma digit_char_spec (d : Z) :
  0 <= d < 10 ->
  Str.is_digit (Str.digit_char d) = true /\ Str.digit_value (Str.digit_char d) = d.
Proof.
  intros Hd.
  assert (d = 0 \/ d = 1 \/ d = 2 \/ d = 3 \/ d = 4
          \/ d = 5 \/ d = 6 \/ d = 7 \/ d = 8 \/ d = 9) as Hcases by lia.
  repeat destruct Hcases as [-> | Hcases]; try subst d; split; reflexivity.
Qed.

Lemma decimal_fuel_step (fuel : nat) (n : Z) (acc : string) :
  Str.decimal_fuel (S fuel) n acc
  = if n <? 10 then String (Str.digit_char (n mod 10)) acc
    else Str.decimal_fuel fuel (n / 10) (String (Str.digit_char (n mod 10)) acc).
Proof. reflexivity. Qed.

(** [decimal_fuel] pushes its digits in front of the accumulator. *)
Lemma decimal_fuel_acc (fuel : nat) (n : Z) (acc : string) :
  Str.decimal_fuel fuel n acc = (Str.decimal_fuel fuel n EmptyString ++ acc)%string.
Proof.
  revert n acc. induction fuel as [|fuel IH]; intros n acc; simpl; [reflexivity|].
  destruct (n <? 10); [reflexivity|].
  rewrite (IH (n / 10) (String _ acc)), (IH (n / 10) (String _ EmptyString)).
  now rewrite append_assoc.
Qed.

(** Any two amounts of fuel that suffice give the same text. *)
Lemma decimal_fuel_irrelevant (f g : nat) (n : Z) (acc : string) :
  0 <= n < 10 ^ Z.of_nat (S f) -> 0 <= n < 10 ^ Z.of_nat (S g) ->
  Str.decimal_fuel (S f) n acc = Str.decimal_fuel (S g) n acc.
Proof.
  revert g n acc. induction f as [|f IH]; intros g n acc Hf Hg.
  - change (10 ^ Z.of_nat 1) with 10 in Hf. simpl.
    destruct (Z.ltb_spec n 10); [reflexivity|lia].
  - destruct g as [|g].
    + change (10 ^ Z.of_nat 1) with 10 in Hg.
      rewrite !decimal_fuel_step.
      destruct (Z.ltb_spec n 10); [reflexivity|lia].
    + rewrite (decimal_fuel_step (S f)), (decimal_fuel_step (S g)).
      destruct (Z.ltb_spec n 10) as [|Hn]; [reflexivity|].
      apply IH.
      * rewrite Nat2Z.inj_succ, Z.pow_succ_r in Hf by lia.
        split; [apply Z.div_pos; lia|]. apply Z.div_lt_upper_bound; lia.
      * rewrite Nat2Z.inj_succ, Z.pow_succ_r in Hg by lia.
        split; [apply Z.div_pos; lia|]. apply Z.div_lt_upper_bound; lia.
Qed.

Lemma decimal_fuel_spec (f : nat) (n : Z) :
  0 <= n < 10 ^ Z.of_nat (S f) ->
  let s := Str.decimal_fuel (S f) n EmptyString in
  Str.all_digits s = true
  /\ Str.int_of_digits s = n
  /\ (1 <= String.length s <= S f)%nat.
Proof.
  revert n. induction f as [|f IH]; intros n Hn.
  - change (10 ^ Z.of_nat 1) with 10 in Hn. simpl.
    destruct (Z.ltb_spec n 10); [|lia].
    rewrite Z.mod_small by lia.
    destruct (digit_char_spec n) as [Hd Hv]; [lia|].
    unfold Str.int_of_digits. simpl. rewrite Hd, Hv. repeat split; lia.
  - cbv zeta. rewrite (decimal_fuel_step (S f)).
    destruct (Z.ltb_spec n 10) as [Hlt|Hge].
    + rewrite Z.mod_small by lia.
      destruct (digit_char_spec n) as [Hd Hv]; [lia|].
      unfold Str.int_of_digits. simpl. rewrite Hd, Hv. repeat split; lia.
    + rewrite decimal_fuel_acc.
      assert (0 <= n / 10 < 10 ^ Z.of_nat (S f)) as Hq.
      { rewrite (Nat2Z.inj_succ (S f)), Z.pow_succ_r in Hn by lia.
        split; [apply Z.div_pos; lia|]. apply Z.div_lt_upper_bound; lia. }
      destruct (IH (n / 10) Hq) as (Hall & Hval & Hlen). cbv zeta in *.
      destruct (digit_char_spec (n mod 10)) as [Hd Hv];
        [apply Z.mod_pos_bound; lia|].
      rewrite all_digits_app, string_length_app. unfold Str.int_of_digits in *.
      rewrite int_of_digits_acc_app, Hval, Hall.
      cbn [Str.int_of_digits_acc Str.all_digits String.length].
      rewrite Hd, Hv.
      pose proof (Z.div_mod n 10).
      repeat split; try reflexivity; lia.
Qed.

(** The fuel [decimal] starts with suffices. *)
Lemma decimal_enough_fuel (n : Z) :
  0 <= n -> 0 <= n < 10 ^ Z.of_nat (S (Z.to_nat (Z.log2 n))).
Proof.
  intros Hn. split; [assumption|].
  rewrite Nat2Z.inj_succ, Z2Nat.id by apply Z.log2_nonneg.
  destruct (Z.eq_dec n 0) as [->|Hnz]; [reflexivity|].
  apply Z.lt_le_trans with (2 ^ Z.succ (Z.log2 n)).
  - apply Z.log2_spec. lia.
  - apply Z.pow_le_mono_l. pose proof (Z.log2_nonneg n). lia.
Qed.

(** [decimal n] is a literal of digits whose value is [n]. *)
Lemma decimal_spec (n : Z) :
  0 <= n ->
  Str.all_digits (Str.decimal n) = true
  /\ Str.int_of_digits (Str.decimal n) = n
  /\ (1 <= String.length (Str.decimal n))%nat.
Proof.
  intros Hn. unfold Str.decimal.
  destruct (decimal_fuel_spec _ n (decimal_enough_fuel n Hn)) as (Ha & Hv & Hl).
  cbv zeta in *. repeat split; [assumption|assumption|lia].
Qed.

(** A number below [10 ^ (k + 1)] has at most [k + 1] digits. *)
Lemma decimal_length_bound (k : nat) (n : Z) :
  0 <= n < 10 ^ Z.of_nat (S k) -> (String.length (Str.decimal n) <= S k)%nat.
Proof.
  intros Hn. unfold Str.decimal.
  rewrite (decimal_fuel_irrelevant _ k n EmptyString
             (decimal_enough_fuel n (proj1 Hn)) Hn).
  destruct (decimal_fuel_spec k n Hn) as (_ & _ & Hl). cbv zeta in Hl. lia.
Qed.

End StrFacts.

(* ===================================================================== *)
(** * Floats *)
(* ===================================================================== *)

(** [overflow_threshold] is where the conversion of an int leaves the
    finite doubles: the integer below it rounds to the largest double, the
    threshold itself rounds to infinity. *)
Lemma overflow_threshold_boundary :
  Float64.of_Z (Float64.overflow_threshold - 1) = S754_finite false (2 ^ 53 - 1) 971
  /\ Float64.of_Z Float64.overflow_threshold = S754_infinity false
  /\ Float64.of_int (Float64.overflow_threshold - 1)
     = Ok (S754_finite false (2 ^ 53 - 1) 971)
  /\ Float64.of_int Float64.overflow_threshold = Raise OverflowError.
Proof. repeat split; vm_compute; reflexivity. Qed.

Lemma hundred_not_zero : Float64.is_zero hundred = false.
Proof. reflexivity. Qed.

(* ===================================================================== *)
(** * The colour translator *)
(* ===================================================================== *)

Section ColorFacts.
Context `{Runtime}.

(** The pattern accepts either spelling followed by a literal of digits,
    and captures the literal. *)
Lemma re_match_gray_literal (spelling ds : string) :
  spelling = "gray" \/ spelling = "grey" ->
  Str.all_digits ds = true -> (1 <= String.length ds)%nat ->
  re_match_gray (spelling ++ ds) = Some ds.
Proof.
  intros Hsp Hds Hlen.
  assert (re_match_gray (spelling ++ ds)
          = let (g, tl) := Str.span_digits ds in
            if negb (String.length g =? 0)%nat
               && (String.eqb tl "" || String.eqb tl (String "010" ""))
            then Some g else None) as ->
      by (destruct Hsp as [-> | ->]; reflexivity).
  rewrite (span_all_digits ds Hds).
  destruct ds as [|c ds]; [simpl in Hlen; lia|reflexivity].
Qed.

(** What the pattern captures is a non-empty literal of digits. *)
Lemma re_match_gray_group (s g : string) :
  re_match_gray s = Some g ->
  Str.all_digits g = true /\ (1 <= String.length g)%nat.
Proof.
  unfold re_match_gray.
  destruct s as [|c0 [|c1 [|c2 [|c3 rest]]]]; try discriminate.
  destruct (_ && _ && _ && _); [|discriminate].
  pose proof (span_digits_all rest) as Hall.
  destruct (Str.span_digits rest) as [ds tl]. simpl in Hall.
  destruct (String.length ds =? 0)%nat eqn:Hlen; simpl; [discriminate|].
  destruct (_ || _); [|discriminate].
  intros [= <-]. apply Nat.eqb_neq in Hlen. split; [assumption|lia].
Qed.

Lemma py_int_literal (g : string) :
  Str.all_digits g = true -> (1 <= String.length g)%nat ->
  py_int g
  = if (str_digits_check_threshold <? Z.of_nat (String.length g))
       && (0 <? int_max_str_digits)
       && (int_max_str_digits <? Z.of_nat (String.length g))
    then Raise ValueError else Ok (Str.int_of_digits g).
Proof.
  intros Hall Hlen. unfold py_int. rewrite Hall. simpl negb.
  destruct (Z.eqb_spec (Z.of_nat (String.length g)) 0); [lia|reflexivity].
Qed.

Lemma py_int_short (g : string) :
  Str.all_digits g = true ->
  (1 <= String.length g)%nat ->
  Z.of_nat (String.length g) <= str_digits_check_threshold ->
  py_int g = Ok (Str.int_of_digits g).
Proof.
  intros Hall Hlen Hshort. rewrite (py_int_literal g Hall Hlen).
  destruct (Z.ltb_spec str_digits_check_threshold (Z.of_nat (String.length g)));
    [lia|reflexivity].
Qed.

Lemma int_of_digits_acc_nonneg (s : string) (acc : Z) :
  Str.all_digits s = true -> 0 <= acc -> 0 <= Str.int_of_digits_acc acc s.
Proof.
  revert acc. induction s as [|c s IH]; intros acc Hall Hacc;
    cbn [Str.int_of_digits_acc]; [assumption|].
  simpl in Hall. apply andb_prop in Hall as [Hc Hs].
  apply IH; [assumption|].
  unfold Str.is_digit in Hc. apply andb_prop in Hc as [H48 _].
  apply N.leb_le in H48. unfold Str.digit_value. lia.
Qed.

Lemma level_of_int (n : Z) :
  0 <= n ->
  Float64.int_truediv n hundred
  = if Float64.overflow_threshold <=? n then Raise OverflowError
    else Ok (Float64.div (Float64.of_Z n) hundred).
Proof.
  intros Hn. unfold Float64.int_truediv, Float64.of_int.
  rewrite Z.abs_eq by assumption.
  destruct (Float64.overflow_threshold <=? n); reflexivity.
Qed.

(** Integers that convert to a float have at most 309 digits. *)
Lemma convertible_short (n : Z) :
  0 <= n < Float64.overflow_threshold ->
  Z.of_nat (String.length (Str.decimal n)) <= str_digits_check_threshold.
Proof.
  intros Hn.
  assert (Float64.overflow_threshold < 10 ^ Z.of_nat (S 308)) as Hthr by reflexivity.
  assert (0 <= n < 10 ^ Z.of_nat (S 308)) as Hn'.
  { split; [apply Hn|]. eapply Z.lt_trans; [apply Hn|exact Hthr]. }
  pose proof (decimal_length_bound 308 n Hn') as Hlen.
  unfold str_digits_check_threshold.
  apply Nat2Z.inj_le in Hlen. etransitivity; [exact Hlen|]. discriminate.
Qed.

(** The translation of a token that spells gray or grey, in any case,
    before a decimal literal. *)
Lemma convert_gray_literal (prefix ds : string) :
  Str.lower prefix = "gray" \/ Str.lower prefix = "grey" ->
  Str.all_digits ds = true -> (1 <= String.length ds)%nat ->
  convert_tk_color (Some (prefix ++ ds)%string)
  = (n <- py_int ds ;;
     level <- Float64.int_truediv n hundred ;;
     Ok (RGB level level level))%py.
Proof.
  intros Hp Hall Hlen. unfold convert_tk_color.
  rewrite lower_app, (lower_digits ds Hall).
  now rewrite (re_match_gray_literal _ ds Hp Hall Hlen).
Qed.

(** On the intensities 0 to 100 the division by 100 is accurate to half a
    unit in the last place. *)
Lemma gray_level_percent (n : Z) : 0 <= n <= 100 -> gray_level_accurate n = true.
Proof.
  intros Hn.
  assert (forallb gray_level_accurate (map Z.of_nat (seq 0 101)) = true) as Hall
      by (vm_compute; reflexivity).
  rewrite forallb_forall in Hall. apply Hall.
  apply in_map_iff. exists (Z.to_nat n). split; [lia|].
  apply in_seq. lia.
Qed.

End ColorFacts.

(** C2 (as amended).  For every integer [n] that Python can convert to a
    float, [0 <= n < 2^1024 - 2^970], and every prefix that lower-cases to
    "gray" or "grey", [convert_tk_color] applied to the prefix followed by
    the decimal digits of [n] returns the neutral colour whose three channels
    are the binary64 quotient [n / 100.0]; for a larger [n] the call raises
    instead of returning a colour.  For [n] from 0 to 100 the channel lies in
    [0, 1], within 2^-54 of n/100.  "gray50" and "grey50" translate
    identically, and nothing is clamped: 150 gives the channel value 1.5. *)
Theorem C2_gray_levels `{Runtime} :
  (forall (prefix : string) (n : Z),
      Str.lower prefix = "gray" \/ Str.lower prefix = "grey" ->
      0 <= n < Float64.overflow_threshold ->
      convert_tk_color (Some (prefix ++ Str.decimal n)%string)
      = Ok (RGB (gray_level n) (gray_level n) (gray_level n)))
  /\ (forall (prefix : string) (n : Z),
         Str.lower prefix = "gray" \/ Str.lower prefix = "grey" ->
         Float64.overflow_threshold <= n ->
         exists e, convert_tk_color (Some (prefix ++ Str.decimal n)%string) = Raise e)
  /\ (forall n : Z, 0 <= n <= 100 -> gray_level_accurate n = true)
  /\ convert_tk_color (Some "gray50") = convert_tk_color (Some "grey50")
  /\ (exists level,
         convert_tk_color (Some "gray150") = Ok (RGB level level level)
         /\ (Float64.to_Q level == 3 # 2)%Q).
Proof.
  split; [|split; [|split; [exact gray_level_percent|split]]].
  - intros prefix n Hp Hn.
    destruct (decimal_spec n (proj1 Hn)) as (Hall & Hval & Hlen).
    rewrite (convert_gray_literal prefix _ Hp Hall Hlen).
    rewrite (py_int_short _ Hall Hlen (convertible_short n Hn)), Hval.
    cbn [rbind]. rewrite (level_of_int n (proj1 Hn)).
    destruct (Z.leb_spec Float64.overflow_threshold n); [lia|reflexivity].
  - intros prefix n Hp Hn.
    assert (0 <= n) as Hn0
        by (transitivity Float64.overflow_threshold; [discriminate|assumption]).
    destruct (decimal_spec n Hn0) as (Hall & Hval & Hlen).
    rewrite (convert_gray_literal prefix _ Hp Hall Hlen).
    rewrite (py_int_literal _ Hall Hlen), Hval.
    destruct (_ && _ && _); [now exists ValueError|].
    cbn [rbind]. rewrite (level_of_int n Hn0).
    destruct (Z.leb_spec Float64.overflow_threshold n); [|lia].
    now exists OverflowError.
  - reflexivity.
  - eexists. split; [reflexivity|reflexivity].
Qed.

Lemma C2_gray_levels_witness :
  (Str.lower "GrEy" = "gray" \/ Str.lower "GrEy" = "grey")
  /\ 0 <= 80 < Float64.overflow_threshold
  /\ @convert_tk_color Ideal.runtime (Some ("GrEy" ++ Str.decimal 80)%string)
     = Ok (RGB (gray_level 80) (gray_level 80) (gray_level 80)).
Proof.
  split; [right; reflexivity|].
  split; [split; [discriminate|reflexivity]|].
  apply (proj1 (@C2_gray_levels Ideal.runtime)).
  - right; reflexivity.
  - split; [discriminate|reflexivity].
Defined.

(** C2 as stated fails: for [n = 2^1024] the token "gray" followed by the
    digits of [n] is not translated to a colour, the call raises
    OverflowError. *)
Lemma C2_counterexample :
  0 <= 2 ^ 1024
  /\ @convert_tk_color Ideal.runtime (Some ("gray" ++ Str.decimal (2 ^ 1024))%string)
     = Raise OverflowError.
Proof. split; [discriminate|vm_compute; reflexivity]. Qed.

(** C8 (as amended).  [convert_tk_color] returns the default "blue" for an
    absent token and returns unchanged every token that matches neither the
    grayscale pattern nor an alias; the only tokens it raises on are
    grayscale tokens whose number is too large: OverflowError when the
    number is [2^1024 - 2^970] or more, ValueError when its literal is
    longer than the runtime's limit on decimal literals. *)
Theorem C8_pass_through `{Runtime} :
  convert_tk_color None = Ok (Named "blue")
  /\ (forall s : string,
         re_match_gray (Str.lower s) = None ->
         dict_get (Str.lower s) tk_to_mpl = None ->
         convert_tk_color (Some s) = Ok (Named s))
  /\ (forall (color : option string) (e : exn),
         convert_tk_color color = Raise e ->
         exists s g,
           color = Some s
           /\ re_match_gray (Str.lower s) = Some g
           /\ ((e = OverflowError
                /\ Float64.overflow_threshold <= Str.int_of_digits g)
               \/ (e = ValueError
                   /\ str_digits_check_threshold < Z.of_nat (String.length g)
                   /\ 0 < int_max_str_digits < Z.of_nat (String.length g)))).
Proof.
  split; [reflexivity|split].
  - intros s Hre Hdict. unfold convert_tk_color. now rewrite Hre, Hdict.
  - intros [s|] e; [|discriminate]. unfold convert_tk_color.
    destruct (re_match_gray (Str.lower s)) as [g|] eqn:Hre.
    + destruct (re_match_gray_group _ _ Hre) as [Hall Hlen].
      rewrite (py_int_literal g Hall Hlen).
      destruct (Z.ltb_spec str_digits_check_threshold (Z.of_nat (String.length g)));
        destruct (Z.ltb_spec 0 int_max_str_digits);
        destruct (Z.ltb_spec int_max_str_digits (Z.of_nat (String.length g)));
        cbn [andb rbind];
        try (intros [= <-]; exists s, g; split; [reflexivity|]; split; [exact Hre|];
             right; repeat split; (reflexivity || assumption)).
      all: rewrite (level_of_int (Str.int_of_digits g)
                      (int_of_digits_acc_nonneg g 0 Hall (Z.le_refl 0)));
        destruct (Z.leb_spec Float64.overflow_threshold (Str.int_of_digits g));
        [|discriminate];
        intros [= <-]; exists s, g; split; [reflexivity|]; split; [exact Hre|];
        left; split; [reflexivity|assumption].
    + destruct (dict_get (Str.lower s) tk_to_mpl); discriminate.
Qed.

Lemma C8_pass_through_witness :
  re_match_gray (Str.lower "#ff00ff") = None
  /\ dict_get (Str.lower "#ff00ff") tk_to_mpl = None
  /\ @convert_tk_color Ideal.runtime (Some "#ff00ff") = Ok (Named "#ff00ff").
Proof.
  split; [reflexivity|]. split; [reflexivity|].
  apply (proj1 (proj2 (@C8_pass_through Ideal.runtime))); reflexivity.
Defined.

(** C8 as stated fails: a token can be refused.  "GRAY" followed by a one
    and 309 zeros matches the grayscale pattern and the call raises
    OverflowError. *)
Lemma C8_counterexample :
  @convert_tk_color Ideal.runtime (Some ("GRAY" ++ Str.decimal (10 ^ 309))%string)
  = Raise OverflowError.
Proof. vm_compute. reflexivity. Qed.

(* ===================================================================== *)
(** * Building the figure *)
(* ===================================================================== *)

Section FigureFacts.
Context `{Runtime} `{Backend}.

Lemma same_axes_refl (f : Figure) : same_axes f f.
Proof. unfold same_axes. repeat split. Qed.

Lemma same_axes_trans (f g h : Figure) :
  same_axes f g -> same_axes g h -> same_axes f h.
Proof.
  unfold same_axes. intros Hfg Hgh.
  repeat match goal with H : _ /\ _ |- _ => destruct H end.
  repeat split; congruence.
Qed.

Lemma add_patch_same_axes (fig : Figure) (p : Patch) :
  same_axes fig (Mpl.add_patch fig p).
Proof. unfold same_axes. repeat split. Qed.

Lemma MplCircle_inv (xy : float * float) (r : float) (c : mpl_color) (p : Patch) :
  Mpl.MplCircle xy r c = Ok p ->
  p = {| patch_shape := Circle xy r; facecolor := c; edgecolor := None |}
  /\ to_rgba c <> None.
Proof.
  unfold Mpl.MplCircle. destruct (to_rgba c); [|discriminate].
  destruct (shape_ok _); [|discriminate].
  intros [= <-]. split; [reflexivity|discriminate].
Qed.

Lemma MplPolygon_inv (xy : list (float * float)) (c : mpl_color) (p : Patch) :
  Mpl.MplPolygon xy c = Ok p ->
  p = {| patch_shape := Polygon xy true; facecolor := c; edgecolor := None |}
  /\ to_rgba c <> None.
Proof.
  unfold Mpl.MplPolygon. destruct (to_rgba c); [|discriminate].
  destruct (shape_ok _); [|discriminate].
  intros [= <-]. split; [reflexivity|discriminate].
Qed.

(** Drawing a ring adds the outer disk in the agent's colour and then the
    inner disk in the background colour. *)
Lemma draw_ring (bg : mpl_color) (fig fig' : Figure)
      (c : option token) (center : Point.t) (r1 r2 : float) :
  draw_agent bg fig (RingEntity c center r1 r2) = Ok fig' ->
  exists color,
    convert_tk_color (match c with Some t => t | None => Some "blue" end) = Ok color
    /\ to_rgba color <> None
    /\ to_rgba bg <> None
    /\ fig' = Mpl.add_patch (Mpl.add_patch fig (ring_outer center r2 color))
                            (ring_inner center r1 bg).
Proof.
  unfold draw_agent. cbn [color_attr].
  destruct (convert_tk_color _) as [color|]; [|discriminate]. cbn [rbind].
  destruct (Mpl.MplCircle (xy_of center) r2 color) as [outer|] eqn:Ho;
    [|discriminate].
  cbn [rbind].
  destruct (Mpl.MplCircle (xy_of center) r1 bg) as [inner|] eqn:Hi;
    [|discriminate].
  cbn [rbind]. intros [= <-].
  apply MplCircle_inv in Ho as [-> Hc]. apply MplCircle_inv in Hi as [-> Hb].
  exists color. repeat split; assumption.
Qed.

(** One agent adds patches after those already there and touches nothing
    else. *)
Lemma draw_agent_appends (bg : mpl_color) (fig fig' : Figure) (agent : Entity) :
  draw_agent bg fig agent = Ok fig' ->
  same_axes fig fig' /\ exists ps, patches fig' = patches fig ++ ps.
Proof.
  destruct agent as [c center r1 r2 | c center r | c corners | c].
  - intros Hd. apply draw_ring in Hd as (color & _ & _ & _ & ->).
    split.
    + eapply same_axes_trans; apply add_patch_same_axes.
    + exists [ring_outer center r2 color; ring_inner center r1 bg].
      cbn. now rewrite <- app_assoc.
  - unfold draw_agent. cbn [color_attr].
    destruct (convert_tk_color _) as [color|]; [|discriminate]. cbn [rbind].
    destruct (Mpl.MplCircle _ _ _) as [p|]; [|discriminate].
    cbn [rbind]. intros [= <-].
    split; [apply add_patch_same_axes|now exists [p]].
  - unfold draw_agent. cbn [color_attr].
    destruct (convert_tk_color _) as [color|]; [|discriminate]. cbn [rbind].
    destruct (Mpl.MplPolygon _ _) as [p|]; [|discriminate].
    cbn [rbind]. intros [= <-].
    split; [apply add_patch_same_axes|now exists [p]].
  - unfold draw_agent. cbn [color_attr].
    destruct (convert_tk_color _) as [color|]; [|discriminate]. cbn [rbind].
    intros [= <-]. split; [apply same_axes_refl|].
    exists []. now rewrite app_nil_r.
Qed.

Lemma draw_agents_appends (bg : mpl_color) (agents : list Entity) :
  forall fig fig',
    draw_agents bg fig agents = Ok fig' ->
    same_axes fig fig' /\ exists ps, patches fig' = patches fig ++ ps.
Proof.
  induction agents as [|agent rest IH]; intros fig fig'; cbn [draw_agents].
  - intros [= <-]. split; [apply same_axes_refl|].
    exists []. now rewrite app_nil_r.
  - destruct (draw_agent bg fig agent) as [fig1|] eqn:Hd; [|discriminate].
    cbn [rbind]. intros Hrest.
    apply draw_agent_appends in Hd as (Hax1 & ps1 & Hps1).
    apply IH in Hrest as (Hax2 & ps2 & Hps2).
    split; [eapply same_axes_trans; eassumption|].
    exists (ps1 ++ ps2). now rewrite Hps2, Hps1, app_assoc.
Qed.

Lemma draw_agents_app (bg : mpl_color) (pre post : list Entity) :
  forall fig,
    draw_agents bg fig (pre ++ post)
    = (fig' <- draw_agents bg fig pre ;; draw_agents bg fig' post)%py.
Proof.
  induction pre as [|agent pre IH]; intros fig; cbn [draw_agents app rbind];
    [reflexivity|].
  destruct (draw_agent bg fig agent) as [fig1|]; cbn [rbind]; [apply IH|reflexivity].
Qed.

Lemma MplCircle_ok (xy : float * float) (r : float) (c : mpl_color) :
  to_rgba c <> None -> shape_ok (Circle xy r) = true ->
  Mpl.MplCircle xy r c
  = Ok {| patch_shape := Circle xy r; facecolor := c; edgecolor := None |}.
Proof.
  intros Hc Hs. unfold Mpl.MplCircle. rewrite Hs.
  destruct (to_rgba c); [reflexivity|contradiction].
Qed.

Lemma MplPolygon_ok (xy : list (float * float)) (c : mpl_color) :
  to_rgba c <> None -> shape_ok (Polygon xy true) = true ->
  Mpl.MplPolygon xy c
  = Ok {| patch_shape := Polygon xy true; facecolor := c; edgecolor := None |}.
Proof.
  intros Hc Hs. unfold Mpl.MplPolygon. rewrite Hs.
  destruct (to_rgba c); [reflexivity|contradiction].
Qed.

(** The loop returns when every agent is drawable. *)
Lemma draw_agents_ok (bg : mpl_color) (agents : list Entity) :
  Forall (drawable bg) agents ->
  forall fig, exists fig', draw_agents bg fig agents = Ok fig'.
Proof.
  induction 1 as [|agent rest (color & Hcolor & Hshape) _ IH]; intros fig.
  - now exists fig.
  - cbn [draw_agents]. unfold draw_agent. rewrite Hcolor. cbn [rbind].
    destruct agent as [c center r1 r2 | c center r | c corners | c].
    + destruct Hshape as (Hc & Ho & Hb & Hi).
      rewrite (MplCircle_ok _ _ _ Hc Ho). cbn [rbind].
      rewrite (MplCircle_ok _ _ _ Hb Hi). cbn [rbind]. apply IH.
    + destruct Hshape as (Hc & Ho).
      rewrite (MplCircle_ok _ _ _ Hc Ho). cbn [rbind]. apply IH.
    + destruct Hshape as (Hc & Ho).
      rewrite (MplPolygon_ok _ _ Hc Ho). cbn [rbind]. apply IH.
    + apply IH.
Qed.

(** What [compose_figure] has settled before the loop over the agents:
    the translated background is the face colour of the axes, the axes are
    off, and no patch has been added. *)
Lemma compose_figure_inv (s : VideoVisualizer) (agents : list Entity)
      (fig0 fig : Figure) :
  compose_figure s agents fig0 = Ok fig ->
  exists bg fig1,
    convert_tk_color (match bg_color s with Some c => c | None => Some "gray" end)
    = Ok bg
    /\ to_rgba bg <> None
    /\ number fig1 = number fig0 /\ figsize fig1 = figsize fig0
    /\ dpi fig1 = dpi fig0
    /\ ax_facecolor fig1 = bg /\ axison fig1 = false
    /\ patches fig1 = patches fig0
    /\ draw_agents bg fig1 agents = Ok fig.
Proof.
  unfold compose_figure, Mpl.set_xlim, Mpl.set_ylim, Mpl.set_facecolor.
  destruct (_ && _); [|discriminate]. cbn [rbind].
  destruct (_ && _); [|discriminate]. cbn [rbind].
  destruct (convert_tk_color _) as [bg|]; [|discriminate]. cbn [rbind].
  destruct (to_rgba bg) eqn:Hbg; [|discriminate]. cbn [rbind].
  intros Hd.
  match type of Hd with draw_agents _ ?f _ = _ => exists bg, f end.
  split; [reflexivity|]. split; [congruence|].
  repeat (split; [reflexivity|]). exact Hd.
Qed.

Lemma compose_figure_axes (s : VideoVisualizer) (agents : list Entity)
      (fig0 fig : Figure) :
  compose_figure s agents fig0 = Ok fig ->
  number fig = number fig0 /\ figsize fig = figsize fig0 /\ dpi fig = dpi fig0.
Proof.
  intros Hc.
  apply compose_figure_inv in Hc
    as (bg & fig1 & _ & _ & Hn & Hs & Hd & _ & _ & _ & Hdraw).
  apply draw_agents_appends in Hdraw as [Hax _].
  unfold same_axes in Hax.
  repeat match goal with H : _ /\ _ |- _ => destruct H end.
  repeat split; congruence.
Qed.

End FigureFacts.

(* ===================================================================== *)
(** * From the canvas to the stored frame *)
(* ===================================================================== *)

Section FrameFacts.
Context `{Runtime} `{Backend}.

Lemma keep_first_rgba (l : list rgba) :
  Np.keep_first 4 3 0 (flat_map rgba_bytes l) = flat_map rgb_bytes l.
Proof.
  induction l as [|[[[r g] b] a] l IH]; [reflexivity|].
  cbn [flat_map rgba_bytes rgb_bytes app].
  cbn [Np.keep_first Nat.eqb Nat.ltb Nat.leb]. now rewrite IH.
Qed.

Lemma rgba_bytes_length (l : list rgba) :
  List.length (flat_map rgba_bytes l) = (4 * List.length l)%nat.
Proof.
  induction l as [|[[[r g] b] a] l IH]; [reflexivity|].
  cbn [flat_map rgba_bytes app List.length]. rewrite IH. lia.
Qed.

Lemma flat_map_of_map {A B C : Type} (f : B -> list C) (g : A -> B) (l : list A) :
  flat_map (fun a => f (g a)) l = flat_map f (map g l).
Proof. induction l as [|a l IH]; [reflexivity|]. cbn. now rewrite IH. Qed.

Lemma render_pixels (fig : Figure) (w h : nat) :
  Mpl.render fig w h = flat_map rgba_bytes (canvas_pixels fig w h).
Proof.
  unfold Mpl.render, canvas_pixels.
  induction (seq 0 h) as [|row rows IH]; [reflexivity|].
  cbn [flat_map]. rewrite flat_map_app, IH. f_equal.
  apply flat_map_of_map.
Qed.

Lemma canvas_pixels_length (fig : Figure) (w h : nat) :
  List.length (canvas_pixels fig w h) = (h * w)%nat.
Proof.
  unfold canvas_pixels. generalize 0%nat at 2.
  induction h as [|h IH]; intros a; [reflexivity|].
  cbn [seq flat_map]. rewrite length_app, length_map, length_seq, IH. lia.
Qed.

(** The pixel in row [row] and column [col] of a table laid out row by
    row. *)
Lemma nth_rows {A : Type} (P : nat -> nat -> A) (w : nat) (d : A) :
  forall (h a row col : nat),
    (row < h)%nat -> (col < w)%nat ->
    nth (row * w + col) (flat_map (fun r => map (P r) (seq 0 w)) (seq a h)) d
    = P (a + row)%nat col.
Proof.
  induction h as [|h IH]; intros a row col Hrow Hcol; [lia|].
  cbn [seq flat_map]. destruct row as [|row].
  - rewrite app_nth1 by (rewrite length_map, length_seq; lia).
    rewrite (nth_indep _ d (P a 0%nat)) by (rewrite length_map, length_seq; lia).
    rewrite map_nth, seq_nth by lia. now rewrite Nat.add_0_r.
  - rewrite app_nth2 by (rewrite length_map, length_seq; lia).
    rewrite length_map, length_seq.
    replace (S row * w + col - w)%nat with (row * w + col)%nat by lia.
    rewrite IH by lia. f_equal. lia.
Qed.

Lemma canvas_pixels_nth (fig : Figure) (w h row col : nat) (d : rgba) :
  (row < h)%nat -> (col < w)%nat ->
  nth (row * w + col) (canvas_pixels fig w h) d = Mpl.paint fig row col.
Proof. intros Hrow Hcol. unfold canvas_pixels. now rewrite nth_rows. Qed.

Lemma rgb_chunk (l : list rgba) (d : rgba) :
  forall i : nat,
    (i < List.length l)%nat ->
    firstn 3 (skipn (i * 3) (flat_map rgb_bytes l)) = rgb_bytes (nth i l d).
Proof.
  induction l as [|[[[r g] b] a] l IH]; intros i Hi; [simpl in Hi; lia|].
  destruct i as [|i].
  - reflexivity.
  - cbn [flat_map rgb_bytes app nth]. cbn [Nat.mul Nat.add skipn].
    apply IH. simpl in Hi. lia.
Qed.

(** The frame is the canvas without its alpha channel. *)
Lemma grab_frame_inv (fig : Figure) (frame : Np.ndarray) :
  grab_frame fig = Ok frame ->
  exists w h,
    Mpl.get_width_height fig = (w, h)
    /\ renderer_ok w h = true
    /\ frame = {| Np.shape := [h; w; 3%nat];
                  Np.data := flat_map rgb_bytes (canvas_pixels fig w h) |}.
Proof.
  unfold grab_frame, Mpl.canvas_draw, Mpl.buffer_rgba.
  destruct (Mpl.get_width_height fig) as [w h].
  cbn [rbind fst snd]. unfold raise_unless.
  destruct (renderer_ok w h) eqn:Hr; [|discriminate]. cbn [rbind fst snd].
  unfold Np.reshape, Np.frombuffer. cbn [Np.data Np.size_of fold_right].
  rewrite render_pixels, rgba_bytes_length, canvas_pixels_length.
  replace (h * (w * (4 * 1)) =? 4 * (h * w))%nat with true
    by (symmetry; apply Nat.eqb_eq; lia).
  cbn [rbind]. unfold Np.slice_last, Np.copy. cbn [Np.shape Np.data rbind].
  rewrite keep_first_rgba. intros [= <-].
  exists w, h. repeat split. exact Hr.
Qed.

(** Conversely, a canvas that can be allocated is always grabbed. *)
Lemma grab_frame_ok (fig : Figure) (w h : nat) :
  Mpl.get_width_height fig = (w, h) ->
  renderer_ok w h = true ->
  grab_frame fig = Ok {| Np.shape := [h; w; 3%nat];
                        Np.data := flat_map rgb_bytes (canvas_pixels fig w h) |}.
Proof.
  intros Hwh Hr. unfold grab_frame, Mpl.canvas_draw, Mpl.buffer_rgba. rewrite Hwh.
  cbn [rbind fst snd]. unfold raise_unless. rewrite Hr. cbn [rbind fst snd].
  unfold Np.reshape, Np.frombuffer. cbn [Np.data Np.size_of fold_right].
  rewrite render_pixels, rgba_bytes_length, canvas_pixels_length.
  replace (h * (w * (4 * 1)) =? 4 * (h * w))%nat with true
    by (symmetry; apply Nat.eqb_eq; lia).
  cbn [rbind]. unfold Np.slice_last, Np.copy. cbn [Np.shape Np.data rbind].
  now rewrite keep_first_rgba.
Qed.

(** A pixel of the frame is the painted colour of the canvas, less its
    alpha. *)
Lemma frame_pixel (fig : Figure) (w h row col : nat) :
  (row < h)%nat -> (col < w)%nat ->
  Np.pixel {| Np.shape := [h; w; 3%nat];
              Np.data := flat_map rgb_bytes (canvas_pixels fig w h) |} row col
  = rgb_bytes (Mpl.paint fig row col).
Proof.
  intros Hrow Hcol. unfold Np.pixel. cbn [Np.shape Np.data].
  rewrite (rgb_chunk _ (0, 0, 0, 0)).
  - now rewrite canvas_pixels_nth.
  - rewrite canvas_pixels_length. nia.
Qed.

(** The shape of a frame depends on the figure's size and dpi only. *)
Lemma grab_frame_shape (s : VideoVisualizer) (agents : list Entity) (num : nat)
      (frame : Np.ndarray) :
  frame_of s num agents = Ok frame -> frame_shape s = Ok (Np.shape frame).
Proof.
  unfold frame_of, figure_of, frame_shape.
  destruct (inches (width s) (ppm s)) as [fw|]; [|discriminate].
  destruct (inches (height s) (ppm s)) as [fh|]; [|discriminate].
  cbn [rbind]. unfold raise_unless.
  destruct (Mpl.figsize_ok fw fh); [|discriminate]. cbn [rbind].
  destruct (compose_figure _ _ _) as [fig|] eqn:Hc; [|discriminate].
  cbn [rbind]. intros Hg.
  apply compose_figure_axes in Hc as (_ & Hsize & Hdpi).
  apply grab_frame_inv in Hg as (w & h & Hwh & _ & ->).
  unfold Mpl.get_width_height in Hwh. rewrite Hsize, Hdpi in Hwh.
  cbn [Mpl.new_figure figsize dpi] in Hwh.
  rewrite Hwh. reflexivity.
Qed.

End FrameFacts.

(* ===================================================================== *)
(** * One capture *)
(* ===================================================================== *)

Section CaptureFacts.
Context `{Runtime} `{Backend}.

Lemma filter_keeps_smaller (figs : list nat) (num : nat) :
  Forall (fun k => (k <= num)%nat) figs ->
  filter (fun n => negb (n =? S num)%nat) figs = figs.
Proof.
  induction 1 as [|k figs Hk _ IH]; [reflexivity|].
  cbn [filter]. destruct (Nat.eqb_spec k (S num)); [lia|].
  cbn [negb]. now rewrite IH.
Qed.

(** Closing the figure that was opened last restores the registry. *)
Lemma filter_fresh (figs : list nat) :
  filter (fun n => negb (n =? S (list_max figs))%nat) (figs ++ [S (list_max figs)])
  = figs.
Proof.
  rewrite filter_app. cbn [filter]. rewrite Nat.eqb_refl. cbn [negb].
  rewrite app_nil_r. apply filter_keeps_smaller.
  now apply list_max_le.
Qed.

(** [update_agents] in one step: the frame is computed by [frame_of]; when
    that succeeds the frame is appended and the registry of figures is as
    before; when it raises, nothing is appended and the figure, if one was
    created, stays registered. *)
Lemma update_agents_run (agents : list Entity) (w : World) :
  update_agents agents w
  = match frame_of (self w) (S (list_max (open_figures w))) agents with
    | Ok frame =>
        (Ok tt, with_self w (with_frames (self w) (frames (self w) ++ [frame])))
    | Raise e =>
        (Raise e,
         if figure_created (self w)
         then with_open_figures w (open_figures w ++ [S (list_max (open_figures w))])
         else w)
    end.
Proof.
  unfold update_agents, frame_of, figure_of, figure_created, bind, lift,
    get_self, set_self, plt_subplots, plt_close, raise_unless.
  destruct (inches (width (self w)) (ppm (self w))) as [fw|]; [|reflexivity].
  destruct (inches (height (self w)) (ppm (self w))) as [fh|]; [|reflexivity].
  cbn [rbind fst snd].
  destruct (Mpl.figsize_ok fw fh); [|reflexivity]. cbn [rbind].
  destruct (compose_figure _ _ _) as [fig|] eqn:Hc; [|reflexivity].
  cbn [rbind].
  destruct (grab_frame fig) as [frame|]; [|reflexivity].
  apply compose_figure_axes in Hc as (Hnum & _ & _).
  rewrite Hnum. cbn [Mpl.new_figure number].
  unfold with_open_figures, with_self. cbn [self open_figures stdout files].
  now rewrite filter_fresh.
Qed.

(** A capture that returns has appended exactly its frame and changed
    nothing else. *)
Lemma update_agents_ok (agents : list Entity) (w w' : World) :
  update_agents agents w = (Ok tt, w') ->
  exists frame,
    frame_of (self w) (S (list_max (open_figures w))) agents = Ok frame
    /\ w' = with_self w (with_frames (self w) (frames (self w) ++ [frame])).
Proof.
  rewrite update_agents_run.
  destruct (frame_of _ _ _) as [frame|]; [|discriminate].
  intros [= <-]. now exists frame.
Qed.

(** A capture that raises has appended nothing. *)
Lemma update_agents_raise (agents : list Entity) (w w' : World) (e : exn) :
  update_agents agents w = (Raise e, w') ->
  self w' = self w /\ stdout w' = stdout w /\ files w' = files w
  /\ open_figures w'
     = if figure_created (self w)
       then open_figures w ++ [S (list_max (open_figures w))]
       else open_figures w.
Proof.
  rewrite update_agents_run.
  destruct (frame_of _ _ _) as [frame|]; [discriminate|].
  intros [= <- <-]. destruct (figure_created (self w)); repeat split.
Qed.

(** A capture returns, with its frame appended, when [plt.subplots] hands
    it a figure, the extent of the world is finite, the background and
    every agent can be drawn, and a renderer of the size of the canvas can
    be allocated. *)
Lemma update_agents_returns (agents : list Entity) (w : World)
      (bg : mpl_color) (rows cols : nat) :
  figure_created (self w) = true ->
  Float64.is_finite (width (self w)) = true ->
  Float64.is_finite (height (self w)) = true ->
  convert_tk_color
    (match bg_color (self w) with Some c => c | None => Some "gray" end) = Ok bg ->
  to_rgba bg <> None ->
  Forall (drawable bg) agents ->
  frame_shape (self w) = Ok [rows; cols; 3%nat] ->
  renderer_ok cols rows = true ->
  exists frame,
    update_agents agents w
    = (Ok tt, with_self w (with_frames (self w) (frames (self w) ++ [frame])))
    /\ Np.shape frame = [rows; cols; 3%nat].
Proof.
  intros Hfig Hw Hh Hbg Hbg_ok Hagents Hshape Hrenderer.
  rewrite update_agents_run. unfold frame_of, figure_of.
  unfold figure_created in Hfig. unfold frame_shape in Hshape.
  destruct (inches (width (self w)) (ppm (self w))) as [fw|]; [|discriminate].
  destruct (inches (height (self w)) (ppm (self w))) as [fh|]; [|discriminate].
  cbn [rbind] in *. rewrite Hfig. cbn [raise_unless rbind].
  unfold compose_figure, Mpl.set_xlim, Mpl.set_ylim, Mpl.set_facecolor.
  change (Float64.is_finite (Float64.of_Z 0)) with true.
  rewrite Hw, Hh, Hbg. cbn [andb rbind].
  destruct (to_rgba bg); [|contradiction]. cbn [rbind].
  match goal with
  | |- context [draw_agents bg ?f agents] =>
      destruct (draw_agents_ok bg agents Hagents f) as [fig Hdraw]
  end.
  rewrite Hdraw. cbn [rbind].
  pose proof (draw_agents_appends _ _ _ _ Hdraw) as [Hax _].
  destruct Hax as (_ & Hsize & Hdpi & _).
  assert (Mpl.get_width_height fig = (cols, rows)) as Hwh.
  { unfold Mpl.get_width_height. rewrite <- Hsize, <- Hdpi.
    cbn [figsize dpi Mpl.subplots_adjust Mpl.axis_off Mpl.set_aspect_equal
         Mpl.with_facecolor Mpl.with_ylim Mpl.with_xlim Mpl.new_figure].
    destruct (canvas_size (fw, fh) 100) as [cw ch].
    cbn [fst snd] in Hshape. now injection Hshape as -> ->. }
  rewrite (grab_frame_ok fig cols rows Hwh Hrenderer).
  eexists. split; reflexivity.
Qed.

(** What a capture reads of the recorder: its extent, its density and its
    background colour. *)
Lemma frame_of_ext (s s' : VideoVisualizer) (num : nat) (agents : list Entity) :
  width s = width s' -> height s = height s' -> ppm s = ppm s' ->
  bg_color s = bg_color s' ->
  frame_of s num agents = frame_of s' num agents.
Proof.
  intros Hw Hh Hp Hb. unfold frame_of, figure_of, compose_figure.
  now rewrite Hw, Hh, Hp, Hb.
Qed.

End CaptureFacts.

(* ===================================================================== *)
(** * The frame buffer *)
(* ===================================================================== *)

Section BufferFacts.
Context `{Runtime} `{Backend}.

(** The shape of the frames is read off the canvas of the figure. *)
Lemma frame_shape_canvas (s : VideoVisualizer) (sh : list nat) :
  frame_shape s = Ok sh ->
  exists (fig_width fig_height : float) (rows cols : nat),
    inches (width s) (ppm s) = Ok fig_width
    /\ inches (height s) (ppm s) = Ok fig_height
    /\ canvas_size (fig_width, fig_height) 100 = (cols, rows)
    /\ sh = [rows; cols; 3%nat].
Proof.
  unfold frame_shape.
  destruct (inches (width s) (ppm s)) as [fw|]; [|discriminate].
  destruct (inches (height s) (ppm s)) as [fh|]; [|discriminate].
  cbn [rbind]. intros [= <-].
  exists fw, fh, (snd (canvas_size (fw, fh) 100)), (fst (canvas_size (fw, fh) 100)).
  repeat split. now destruct (canvas_size (fw, fh) 100).
Qed.

(** Captures that all return append their frames in the order of the
    calls, and leave the rest of the world as it was. *)
Lemma captures_ok (steps : list (list Entity)) :
  forall w w',
    captures steps w = (Ok tt, w') ->
    exists fs,
      Forall2 (fun agents frame =>
                 frame_of (self w) (S (list_max (open_figures w))) agents = Ok frame)
              steps fs
      /\ w' = with_self w (with_frames (self w) (frames (self w) ++ fs)).
Proof.
  induction steps as [|agents rest IH]; intros w w'; cbn [captures].
  - intros [= <-]. exists []. split; [constructor|].
    rewrite app_nil_r. destruct w as [[] ? ? ?]; reflexivity.
  - unfold bind.
    destruct (update_agents agents w) as [[[]|e] w1] eqn:Hu; [|discriminate].
    intros Hrest.
    apply update_agents_ok in Hu as (frame & Hf & ->).
    apply IH in Hrest as (fs & Hfs & ->).
    exists (frame :: fs). split.
    + constructor; [assumption|].
      eapply Forall2_impl; [|exact Hfs].
      intros a f Haf. cbn [with_self self open_figures] in Haf.
      now rewrite (frame_of_ext _ (self w)) in Haf by reflexivity.
    + unfold with_self, with_frames.
      cbn [self open_figures stdout files width height ppm frames
           window_created bg_color].
      now rewrite <- app_assoc.
Qed.

End BufferFacts.

(** On the reference backend the world of [example_rendervid.py], 120 by
    120 metres at 6 pixels a metre, has frames of 720 by 720. *)
Example frame_shape_circular_road :
  @frame_shape Ideal.backend (init (Float64.of_Z 120) (Float64.of_Z 120) 6)
  = Ok [720; 720; 3]%nat.
Proof. vm_compute. reflexivity. Qed.

(** C1 (as amended).  For every k, after k calls of [update_agents] that
    return normally on an empty frame buffer, the buffer holds exactly k
    frames, the i-th being the frame rendered from the i-th list of agents;
    every frame has the same shape, with 3 channels and no alpha; its
    columns and rows are whole numbers, the width and height of the canvas
    that the backend gives a figure of [width * ppm / 100] by
    [height * ppm / 100] inches (in binary64) at 100 dpi.  Every call either
    returns, having appended its frame, or raises, having appended
    nothing. *)
Theorem C1_frames_accumulate `{Runtime} `{Backend} :
  (forall (steps : list (list Entity)) (w w' : World),
      frames (self w) = [] ->
      captures steps w = (Ok tt, w') ->
      List.length (frames (self w')) = List.length steps
      /\ Forall2 (fun agents frame =>
                    frame_of (self w) (S (list_max (open_figures w))) agents
                    = Ok frame)
                 steps (frames (self w'))
      /\ (forall frame,
             In frame (frames (self w')) ->
             frame_shape (self w) = Ok (Np.shape frame)
             /\ exists (fig_width fig_height : float) (rows cols : nat),
                 inches (width (self w)) (ppm (self w)) = Ok fig_width
                 /\ inches (height (self w)) (ppm (self w)) = Ok fig_height
                 /\ canvas_size (fig_width, fig_height) 100 = (cols, rows)
                 /\ Np.shape frame = [rows; cols; 3%nat])
      /\ (forall frame frame',
             In frame (frames (self w')) -> In frame' (frames (self w')) ->
             Np.shape frame = Np.shape frame'))
  /\ (forall (agents : list Entity) (w : World),
         (exists frame,
             update_agents agents w
             = (Ok tt, with_self w (with_frames (self w) (frames (self w) ++ [frame]))))
         \/ (exists e w',
                update_agents agents w = (Raise e, w')
                /\ frames (self w') = frames (self w))).
Proof.
  split.
  - intros steps w w' Hempty Hrun.
    apply captures_ok in Hrun as (fs & Hfs & ->).
    cbn [with_self with_frames self frames]. rewrite Hempty. cbn [app].
    split; [symmetry; eapply Forall2_length; exact Hfs|].
    split; [exact Hfs|].
    assert (forall frame, In frame fs -> frame_shape (self w) = Ok (Np.shape frame))
      as Hshapes.
    { intros frame Hin.
      assert (exists agents,
                 frame_of (self w) (S (list_max (open_figures w))) agents = Ok frame)
        as [agents Hf].
      { clear Hempty. induction Hfs as [|a f steps fs Haf _ IH]; [contradiction|].
        destruct Hin as [<-|Hin]; [now exists a|now apply IH]. }
      exact (grab_frame_shape _ _ _ _ Hf). }
    split.
    + intros frame Hin. pose proof (Hshapes frame Hin) as Hshape.
      split; [exact Hshape|]. now apply frame_shape_canvas.
    + intros frame frame' Hin Hin'.
      pose proof (Hshapes frame Hin) as Hs. pose proof (Hshapes frame' Hin') as Hs'.
      congruence.
  - intros agents w.
    destruct (update_agents agents w) as [[[]|e] w'] eqn:Hrun.
    + left. apply update_agents_ok in Hrun as (frame & _ & ->). now exists frame.
    + right. exists e, w'. split; [reflexivity|].
      apply update_agents_raise in Hrun as (-> & _). reflexivity.
Qed.

Lemma C1_frames_accumulate_witness :
  frames (self Demo.small_world) = []
  /\ exists w',
      @captures Ideal.runtime Ideal.backend [Demo.road; [Demo.disk]] Demo.small_world
      = (Ok tt, w')
      /\ List.length (frames (self w')) = 2%nat.
Proof.
  split; [reflexivity|].
  eexists. split; [vm_compute; reflexivity|].
  refine (proj1 (proj1 (@C1_frames_accumulate Ideal.runtime Ideal.backend)
                   [Demo.road; [Demo.disk]] Demo.small_world _ _ _)).
  - reflexivity.
  - vm_compute. reflexivity.
Defined.

(** C1 as stated fails: in a world of 2.5 by 2.5 metres at 3 pixels a metre
    the frame is 7 pixels wide, and 7 is not 2.5 x 3. *)
Lemma C1_counterexample :
  exists (w' : World) (frame : Np.ndarray) (rows cols : nat),
    @update_agents Ideal.runtime Ideal.backend [Demo.disk] Demo.fractional_world
    = (Ok tt, w')
    /\ frames (self w') = [frame]
    /\ Np.shape frame = [rows; cols; 3%nat]
    /\ ~ (inject_Z (Z.of_nat cols)
          == Float64.to_Q (width (self Demo.fractional_world))
             * inject_Z (ppm (self Demo.fractional_world)))%Q.
Proof.
  eexists. eexists. exists 7%nat, 7%nat.
  split; [vm_compute; reflexivity|].
  split; [reflexivity|]. split; [reflexivity|].
  vm_compute. discriminate.
Qed.

(** That does not depend on how the canvas is made whole: 2.5 x 3 is not a
    number of pixels. *)
Lemma fractional_width_not_whole (cols : nat) :
  ~ (inject_Z (Z.of_nat cols)
     == Float64.to_Q (width (self Demo.fractional_world))
        * inject_Z (ppm (self Demo.fractional_world)))%Q.
Proof.
  assert (Float64.to_Q (width (self Demo.fractional_world))
          * inject_Z (ppm (self Demo.fractional_world)) == 15 # 2)%Q as ->
      by (vm_compute; reflexivity).
  unfold Qeq. cbn [Qnum Qden inject_Z]. lia.
Qed.

(* ===================================================================== *)
(** * Rings *)
(* ===================================================================== *)

Section RingFacts.
Context `{Runtime} `{Backend}.

(** Patches that do not cover a pixel leave it as it is. *)
Lemma paint_uncovered (fig : Figure) (row col : nat) (ps : list Patch) :
  uncovered fig ps row col ->
  forall acc, fold_left (Mpl.paint_patch fig row col) ps acc = acc.
Proof.
  induction ps as [|p ps IH]; intros Hun acc; [reflexivity|].
  cbn [fold_left]. unfold Mpl.paint_patch at 2.
  rewrite (Hun p (or_introl eq_refl)).
  apply IH. intros q Hq. apply Hun. now right.
Qed.

(** The colour of a pixel once the two disks of a ring are the last
    patches that can cover it. *)
Lemma paint_ring (fig : Figure) (row col : nat) (earlier later : list Patch)
      (center : Point.t) (r1 r2 : float) (bg color : mpl_color)
      (bg_rgba color_rgba : rgba) :
  patches fig
  = earlier ++ [ring_outer center r2 color; ring_inner center r1 bg] ++ later ->
  to_rgba bg = Some bg_rgba -> to_rgba color = Some color_rgba ->
  uncovered fig later row col ->
  (covers fig (Circle (xy_of center) r1) row col = true ->
   opaque bg_rgba -> Mpl.paint fig row col = bg_rgba)
  /\ (covers fig (Circle (xy_of center) r2) row col = true ->
      covers fig (Circle (xy_of center) r1) row col = false ->
      opaque color_rgba -> Mpl.paint fig row col = color_rgba).
Proof.
  intros Hps Hbg Hcolor Hlater. unfold Mpl.paint. rewrite Hps.
  rewrite !fold_left_app, (paint_uncovered _ _ _ _ Hlater).
  set (under := fold_left _ earlier _).
  cbn [fold_left]. unfold Mpl.paint_patch.
  cbn [ring_outer ring_inner patch_shape facecolor]. rewrite Hbg, Hcolor.
  split.
  - intros -> Hop. apply Hop.
  - intros -> -> Hop. apply Hop.
Qed.

(** The patches of a capture whose agents include a ring. *)
Lemma ring_patches (s : VideoVisualizer) (num : nat) (pre post : list Entity)
      (c : option token) (center : Point.t) (r1 r2 : float) (fig : Figure) :
  figure_of s num (pre ++ RingEntity c center r1 r2 :: post) = Ok fig ->
  exists (bg color : mpl_color) (bg_rgba color_rgba : rgba)
         (earlier later : list Patch) (fig_ring : Figure),
    convert_tk_color (match bg_color s with Some t => t | None => Some "gray" end)
    = Ok bg
    /\ convert_tk_color (match c with Some t => t | None => Some "blue" end)
       = Ok color
    /\ to_rgba bg = Some bg_rgba
    /\ to_rgba color = Some color_rgba
    /\ ax_facecolor fig = bg
    /\ patches fig_ring
       = earlier ++ [ring_outer center r2 color; ring_inner center r1 bg]
    /\ draw_agents bg fig_ring post = Ok fig
    /\ patches fig
       = earlier ++ [ring_outer center r2 color; ring_inner center r1 bg] ++ later.
Proof.
  unfold figure_of.
  destruct (inches (width s) (ppm s)) as [fw|]; [|discriminate].
  destruct (inches (height s) (ppm s)) as [fh|]; [|discriminate].
  cbn [rbind]. destruct (raise_unless _ _); [|discriminate]. cbn [rbind].
  intros Hc.
  apply compose_figure_inv in Hc
    as (bg & fig1 & Hbg & Hbg_ok & _ & _ & _ & Hface & _ & _ & Hdraw).
  rewrite draw_agents_app in Hdraw.
  destruct (draw_agents bg fig1 pre) as [fig_pre|] eqn:Hpre; [|discriminate].
  cbn [rbind draw_agents] in Hdraw.
  destruct (draw_agent bg fig_pre (RingEntity c center r1 r2)) as [fig_ring|] eqn:Hring;
    [|discriminate].
  cbn [rbind] in Hdraw.
  apply draw_ring in Hring as (color & Hcolor & Hcolor_ok & _ & ->).
  destruct (to_rgba bg) as [bg_rgba|] eqn:Ebg; [|contradiction].
  destruct (to_rgba color) as [color_rgba|] eqn:Ecolor; [|contradiction].
  pose proof (draw_agents_appends _ _ _ _ Hpre) as [Hax_pre _].
  pose proof (draw_agents_appends _ _ _ _ Hdraw) as (Hax_post & later & Hlater).
  exists bg, color, bg_rgba, color_rgba, (patches fig_pre), later.
  eexists. repeat (split; [eassumption|]).
  split.
  { destruct Hax_pre as (_ & _ & _ & _ & _ & Hf1 & _).
    destruct Hax_post as (_ & _ & _ & _ & _ & Hf2 & _).
    cbn in Hf2. congruence. }
  split; [|split; [exact Hdraw|]].
  - cbn. now rewrite <- app_assoc.
  - rewrite Hlater. cbn. now rewrite <- !app_assoc.
Qed.

End RingFacts.

(** C3 (as amended).  For every Ring entity in a capture, the renderer adds
    a disk of the outer radius in the entity's translated colour and right
    after it a disk of the inner radius in the background colour translated
    at this same call (the face colour of the axes).  In the stored frame,
    a pixel that no later-drawn patch covers equals the background colour
    when it lies within the inner disk, and the entity's colour when it lies
    within the outer disk but not the inner one, the colour in question
    being opaque.  Pixels covered by entities drawn later show those
    entities instead. *)
Theorem C3_ring_is_two_disks `{Runtime} `{Backend}
        (pre post : list Entity) (c : option token) (center : Point.t)
        (r1 r2 : float) (w w' : World) :
  update_agents (pre ++ RingEntity c center r1 r2 :: post) w = (Ok tt, w') ->
  exists (bg color : mpl_color) (bg_rgba color_rgba : rgba) (fig fig_ring : Figure)
         (earlier later : list Patch) (frame : Np.ndarray) (rows cols : nat),
    convert_tk_color
      (match bg_color (self w) with Some t => t | None => Some "gray" end) = Ok bg
    /\ convert_tk_color (match c with Some t => t | None => Some "blue" end)
       = Ok color
    /\ to_rgba bg = Some bg_rgba
    /\ to_rgba color = Some color_rgba
    /\ figure_of (self w) (S (list_max (open_figures w)))
                 (pre ++ RingEntity c center r1 r2 :: post) = Ok fig
    /\ ax_facecolor fig = bg
    /\ patches fig_ring
       = earlier ++ [ring_outer center r2 color; ring_inner center r1 bg]
    /\ draw_agents bg fig_ring post = Ok fig
    /\ patches fig
       = earlier ++ [ring_outer center r2 color; ring_inner center r1 bg] ++ later
    /\ frames (self w') = frames (self w) ++ [frame]
    /\ Np.shape frame = [rows; cols; 3%nat]
    /\ forall row col : nat,
        (row < rows)%nat -> (col < cols)%nat ->
        uncovered fig later row col ->
        (covers fig (Circle (xy_of center) r1) row col = true ->
         opaque bg_rgba -> Np.pixel frame row col = rgb_bytes bg_rgba)
        /\ (covers fig (Circle (xy_of center) r2) row col = true ->
            covers fig (Circle (xy_of center) r1) row col = false ->
            opaque color_rgba -> Np.pixel frame row col = rgb_bytes color_rgba).
Proof.
  intros Hrun.
  apply update_agents_ok in Hrun as (frame & Hframe & ->).
  unfold frame_of in Hframe.
  destruct (figure_of _ _ _) as [fig|] eqn:Hfig; [|discriminate].
  cbn [rbind] in Hframe.
  destruct (ring_patches _ _ _ _ _ _ _ _ _ Hfig)
    as (bg & color & bg_rgba & color_rgba & earlier & later & fig_ring
        & Hbg & Hcolor & Ebg & Ecolor & Hface & Hring & Hdraw & Hps).
  apply grab_frame_inv in Hframe as (cols & rows & _ & _ & ->).
  exists bg, color, bg_rgba, color_rgba, fig, fig_ring, earlier, later.
  eexists. exists rows, cols.
  repeat (split; [first [eassumption | reflexivity]|]).
  intros row col Hrow Hcol Hun.
  rewrite (frame_pixel fig cols rows row col Hrow Hcol).
  destruct (paint_ring fig row col earlier later center r1 r2 bg color
              bg_rgba color_rgba Hps Ebg Ecolor Hun) as [Hin Hband].
  split.
  - intros Hc Hop. now rewrite Hin.
  - intros Ho Hi Hop. now rewrite Hband.
Qed.

Lemma C3_ring_is_two_disks_witness :
  exists w' : World,
    @update_agents Ideal.runtime Ideal.backend [Demo.ring] Demo.small_world
    = (Ok tt, w')
    /\ exists frame, frames (self w') = frames (self Demo.small_world) ++ [frame].
Proof.
  eexists. split; [vm_compute; reflexivity|].
  destruct (@C3_ring_is_two_disks Ideal.runtime Ideal.backend
              [] [] (Some (Some "red")) (Demo.at_ (Demo.F 2) (Demo.F 2))
              (Demo.F 1) (Demo.F 2) Demo.small_world _
              ltac:(vm_compute; reflexivity))
    as (_ & _ & _ & _ & _ & _ & _ & _ & frame & _ & _ & _ & _ & _ & _ & _ & _ & _ & _
        & _ & Hframes & _).
  exists frame. exact Hframes.
Defined.

(** C3 as stated fails: in the small world the ring is followed by a disk
    that lies in its hole.  The pixel in row 4 and column 4 is within the
    inner radius of the ring, yet in the frame it has the colour of the
    disk, not the background colour. *)
Lemma C3_counterexample :
  exists (w' : World) (frame : Np.ndarray) (fig : Figure),
    @update_agents Ideal.runtime Ideal.backend Demo.road Demo.small_world
    = (Ok tt, w')
    /\ frames (self w') = [frame]
    /\ @figure_of Ideal.runtime Ideal.backend (self Demo.small_world) 1 Demo.road
       = Ok fig
    /\ ax_facecolor fig = Named "gray"
    /\ Ideal.resolve (Named "gray") = Some (128, 128, 128, 255)
    /\ Ideal.inside fig (Circle (Demo.F 2, Demo.F 2) (Demo.F 1)) 4 4 = true
    /\ Np.pixel frame 4 4 = [204; 204; 204]
    /\ Np.pixel frame 4 4 <> rgb_bytes (128, 128, 128, 255).
Proof.
  eexists. eexists. eexists.
  split; [vm_compute; reflexivity|].
  split; [reflexivity|].
  split; [vm_compute; reflexivity|].
  split; [reflexivity|]. split; [reflexivity|].
  split; [vm_compute; reflexivity|].
  split; [vm_compute; reflexivity|].
  vm_compute. discriminate.
Qed.

(* ===================================================================== *)
(** * The rendering surface *)
(* ===================================================================== *)

(** C4.  A capture that returns has closed its figure: the registry of open
    figures is what it was before the call.  A capture that raises after
    [plt.subplots] has handed it a figure appends no frame and leaves the
    recorder as it was, but never reaches [plt.close]: the figure stays
    registered as open. *)
Theorem C4_figure_release `{Runtime} `{Backend} :
  (forall (agents : list Entity) (w w' : World),
      update_agents agents w = (Ok tt, w') -> open_figures w' = open_figures w)
  /\ (forall (agents : list Entity) (w w' : World) (e : exn),
         update_agents agents w = (Raise e, w') ->
         figure_created (self w) = true ->
         self w' = self w
         /\ open_figures w' = open_figures w ++ [S (list_max (open_figures w))]).
Proof.
  split.
  - intros agents w w' Hrun.
    apply update_agents_ok in Hrun as (frame & _ & ->). reflexivity.
  - intros agents w w' e Hraise Hfig.
    apply update_agents_raise in Hraise as (Hself & _ & _ & Hopen).
    rewrite Hfig in Hopen. now split.
Qed.

Lemma C4_figure_release_witness :
  @update_agents Ideal.runtime Ideal.backend [Demo.bright_disk] Demo.small_world
  = (Raise ValueError, with_open_figures Demo.small_world [1%nat])
  /\ figure_created (self Demo.small_world) = true
  /\ frames (self (with_open_figures Demo.small_world [1%nat])) = []
  /\ open_figures (with_open_figures Demo.small_world [1%nat])
     = open_figures Demo.small_world ++ [1%nat].
Proof.
  split; [vm_compute; reflexivity|]. split; [vm_compute; reflexivity|].
  destruct (proj2 (@C4_figure_release Ideal.runtime Ideal.backend)
              [Demo.bright_disk] Demo.small_world
              (with_open_figures Demo.small_world [1%nat]) ValueError
              ltac:(vm_compute; reflexivity) ltac:(vm_compute; reflexivity))
    as [Hself Hopen].
  split; [now rewrite Hself|exact Hopen].
Defined.

(* ===================================================================== *)
(** * The session flag *)
(* ===================================================================== *)

Section SessionFacts.
Context `{Runtime} `{Backend}.

Lemma close_run (w : World) : close w = (Ok tt, closed w).
Proof. reflexivity. Qed.

(** [update_agents] does not read [window_created]. *)
Lemma update_agents_closed (agents : list Entity) (w : World) :
  update_agents agents (closed w)
  = (fst (update_agents agents w), closed (snd (update_agents agents w))).
Proof.
  rewrite !update_agents_run.
  change (open_figures (closed w)) with (open_figures w).
  change (figure_created (self (closed w))) with (figure_created (self w)).
  rewrite (frame_of_ext (self (closed w)) (self w)) by reflexivity.
  destruct (frame_of _ _ _) as [frame|]; [reflexivity|].
  destruct (figure_created (self w)); reflexivity.
Qed.

End SessionFacts.

(** C5 (as amended).  [close()] sets [window_created] to false and changes
    nothing else.  [update_agents] does not read the flag: a capture after
    [close()] behaves exactly as the same capture without it, and when it
    returns it has appended one frame. *)
Theorem C5_close_only_clears_flag `{Runtime} `{Backend} :
  (forall w : World,
      close w = (Ok tt, closed w)
      /\ window_created (self (closed w)) = false
      /\ frames (self (closed w)) = frames (self w)
      /\ bg_color (self (closed w)) = bg_color (self w)
      /\ width (self (closed w)) = width (self w)
      /\ height (self (closed w)) = height (self w)
      /\ ppm (self (closed w)) = ppm (self w)
      /\ open_figures (closed w) = open_figures w
      /\ stdout (closed w) = stdout w
      /\ files (closed w) = files w)
  /\ (forall (agents : list Entity) (w : World),
         update_agents agents (closed w)
         = (fst (update_agents agents w), closed (snd (update_agents agents w))))
  /\ (forall (agents : list Entity) (w w' : World),
         update_agents agents (closed w) = (Ok tt, w') ->
         List.length (frames (self w')) = S (List.length (frames (self w)))).
Proof.
  split; [|split].
  - intros w. repeat split.
  - apply update_agents_closed.
  - intros agents w w' Hrun.
    apply update_agents_ok in Hrun as (frame & _ & ->).
    cbn [with_self with_frames self frames closed with_window_created].
    rewrite length_app. cbn [List.length]. lia.
Qed.

Lemma C5_close_only_clears_flag_witness :
  exists w' : World,
    @update_agents Ideal.runtime Ideal.backend Demo.road (closed Demo.small_world)
    = (Ok tt, w')
    /\ List.length (frames (self w'))
       = S (List.length (frames (self Demo.small_world))).
Proof.
  eexists. split; [vm_compute; reflexivity|].
  apply (proj2 (proj2 (@C5_close_only_clears_flag Ideal.runtime Ideal.backend))
           Demo.road Demo.small_world).
  vm_compute. reflexivity.
Defined.

(** C5 as stated fails: after [create_window()] and [close()], with no
    re-initialisation, [update_agents] returns normally and the frame
    buffer, empty before, holds a frame. *)
Lemma C5_counterexample :
  exists (w1 w2 : World) (frame : Np.ndarray),
    (create_window (Some "gray") ;;; close)%M Demo.small_world = (Ok tt, w1)
    /\ window_created (self w1) = false
    /\ frames (self w1) = []
    /\ @update_agents Ideal.runtime Ideal.backend Demo.road w1 = (Ok tt, w2)
    /\ frames (self w2) = [frame].
Proof.
  eexists. eexists. eexists.
  split; [reflexivity|]. split; [reflexivity|]. split; [reflexivity|].
  split; [vm_compute; reflexivity|]. reflexivity.
Qed.

(* ===================================================================== *)
(** * Saving *)
(* ===================================================================== *)

(** C6.  With an empty frame buffer, [save_video] and [save_gif] print
    "No frames to save!" and return: nothing is raised, no file is written,
    and the recorder is unchanged, whatever the path and the frame rate. *)
Theorem C6_save_nothing `{Backend} (filename : string) (fps : Z) (w : World) :
  frames (self w) = [] ->
  save_video filename fps w = (Ok tt, printed w "No frames to save!")
  /\ save_gif filename fps w = (Ok tt, printed w "No frames to save!")
  /\ self (printed w "No frames to save!") = self w
  /\ files (printed w "No frames to save!") = files w
  /\ open_figures (printed w "No frames to save!") = open_figures w.
Proof.
  intros Hempty. unfold save_video, save_gif, bind, get_self.
  rewrite Hempty. repeat split.
Qed.

Lemma C6_save_nothing_witness :
  frames (self Demo.small_world) = []
  /\ @save_video Ideal.backend "rollout.mp4" 10 Demo.small_world
     = (Ok tt, printed Demo.small_world "No frames to save!")
  /\ @save_gif Ideal.backend "rollout.gif" 10 Demo.small_world
     = (Ok tt, printed Demo.small_world "No frames to save!").
Proof.
  split; [reflexivity|]. split.
  - apply (@C6_save_nothing Ideal.backend "rollout.mp4" 10 Demo.small_world).
    reflexivity.
  - apply (@C6_save_nothing Ideal.backend "rollout.gif" 10 Demo.small_world).
    reflexivity.
Defined.

(** C9.  [save_video] and [save_gif] are the same function of the world,
    the path and the frame rate: the same guard on an empty buffer, the same
    call of [imageio.mimsave] with the same arguments, the same lines
    printed.  Neither changes the recorder, and all that is handed to the
    encoder is the path, the frames and the frame rate, so the container
    can depend on the call only through the path. *)
Theorem C9_save_video_is_save_gif `{Backend} (filename : string) (fps : Z) (w : World) :
  save_video filename fps w = save_gif filename fps w
  /\ self (snd (save_video filename fps w)) = self w
  /\ (files (snd (save_video filename fps w)) = files w
      \/ files (snd (save_video filename fps w))
         = files w ++ [(filename, (frames (self w), fps))]).
Proof.
  split; [reflexivity|].
  unfold save_video, bind, get_self, imageio_mimsave, print.
  destruct (frames (self w)) as [|frame fs]; cbn [fst snd self files].
  - split; [reflexivity|now left].
  - destruct (mimsave_ok filename (frame :: fs) fps); cbn [fst snd self files].
    + split; [reflexivity|now right].
    + split; [reflexivity|now left].
Qed.

(* ===================================================================== *)
(** * Clearing *)
(* ===================================================================== *)

(** C7.  [clear_frames()] empties the frame buffer and changes nothing
    else: the world's width and height, the density, the stored background
    colour and the session flag are as before.  Whatever the buffer held, a
    capture that returns after [clear_frames()] leaves it holding one
    frame. *)
Theorem C7_clear_frames `{Runtime} `{Backend} (w : World) :
  clear_frames w = (Ok tt, cleared w)
  /\ frames (self (cleared w)) = []
  /\ width (self (cleared w)) = width (self w)
  /\ height (self (cleared w)) = height (self w)
  /\ ppm (self (cleared w)) = ppm (self w)
  /\ bg_color (self (cleared w)) = bg_color (self w)
  /\ window_created (self (cleared w)) = window_created (self w)
  /\ open_figures (cleared w) = open_figures w
  /\ stdout (cleared w) = stdout w
  /\ files (cleared w) = files w
  /\ forall (agents : list Entity) (w' : World),
      update_agents agents (cleared w) = (Ok tt, w') ->
      List.length (frames (self w')) = 1%nat.
Proof.
  repeat (split; [reflexivity|]).
  intros agents w' Hrun.
  apply update_agents_ok in Hrun as (frame & _ & ->).
  reflexivity.
Qed.

Lemma C7_clear_frames_witness :
  List.length (frames (self Demo.after_two_captures)) = 2%nat
  /\ exists w' : World,
      @update_agents Ideal.runtime Ideal.backend [Demo.disk]
        (cleared Demo.after_two_captures)
      = (Ok tt, w')
      /\ List.length (frames (self w')) = 1%nat.
Proof.
  split; [vm_compute; reflexivity|].
  eexists. split; [vm_compute; reflexivity|].
  destruct (@C7_clear_frames Ideal.runtime Ideal.backend Demo.after_two_captures)
    as (_ & _ & _ & _ & _ & _ & _ & _ & _ & _ & Hone).
  apply (Hone [Demo.disk]). vm_compute. reflexivity.
Defined.

(* ===================================================================== *)
(** * Capturing before the window exists *)
(* ===================================================================== *)

Section WindowFacts.
Context `{Runtime} `{Backend}.

Lemma create_window_run (bg : token) (w : World) :
  create_window bg w = (Ok tt, windowed w bg).
Proof. reflexivity. Qed.

(** A recorder without the attribute [bg_color] composes the figure that
    a recorder whose window was created with 'gray' composes. *)
Lemma frame_of_default_bg (s : VideoVisualizer) (num : nat) (agents : list Entity) :
  bg_color s = None ->
  frame_of s num agents
  = frame_of (with_window_created (with_bg_color s (Some (Some "gray"))) true)
             num agents.
Proof.
  intros Hbg. unfold frame_of, figure_of, compose_figure.
  cbn [with_window_created with_bg_color width height ppm bg_color].
  now rewrite Hbg.
Qed.

(** Whatever the background, the axes of the figure are switched off. *)
Lemma figure_of_axes_off (s : VideoVisualizer) (num : nat) (agents : list Entity)
      (fig : Figure) :
  figure_of s num agents = Ok fig -> axison fig = false.
Proof.
  unfold figure_of.
  destruct (inches (width s) (ppm s)) as [fw|]; [|discriminate].
  destruct (inches (height s) (ppm s)) as [fh|]; [|discriminate].
  cbn [rbind]. destruct (raise_unless _ _); [|discriminate]. cbn [rbind].
  intros Hc.
  apply compose_figure_inv in Hc
    as (bg & fig1 & _ & _ & _ & _ & _ & _ & Hoff & _ & Hdraw).
  apply draw_agents_appends in Hdraw as [Hax _].
  destruct Hax as (_ & _ & _ & _ & _ & _ & _ & Hon & _). congruence.
Qed.

(** Without the attribute [bg_color] the hole of every ring is drawn in
    'gray'. *)
Lemma ring_holes (s : VideoVisualizer) (num : nat) (agents : list Entity)
      (fig : Figure) :
  bg_color s = None ->
  figure_of s num agents = Ok fig ->
  forall c center r1 r2,
    In (RingEntity c center r1 r2) agents ->
    In (ring_inner center r1 (Named "gray")) (patches fig).
Proof.
  intros Hbg Hfig c center r1 r2 Hin.
  apply in_split in Hin as (pre & post & ->).
  destruct (ring_patches _ _ _ _ _ _ _ _ _ Hfig)
    as (bg & color & bg_rgba & color_rgba & earlier & later & fig_ring
        & Hconv & _ & _ & _ & _ & _ & _ & Hps).
  rewrite Hbg in Hconv. injection Hconv as <-.
  rewrite Hps. apply in_or_app. right. right. now left.
Qed.

Lemma figure_of_facecolor (s : VideoVisualizer) (num : nat) (agents : list Entity)
      (fig : Figure) :
  bg_color s = None ->
  figure_of s num agents = Ok fig -> ax_facecolor fig = Named "gray".
Proof.
  intros Hbg. unfold figure_of.
  destruct (inches (width s) (ppm s)) as [fw|]; [|discriminate].
  destruct (inches (height s) (ppm s)) as [fh|]; [|discriminate].
  cbn [rbind]. destruct (raise_unless _ _); [|discriminate]. cbn [rbind].
  intros Hc.
  apply compose_figure_inv in Hc
    as (bg & fig1 & Hconv & _ & _ & _ & _ & Hface & _ & _ & Hdraw).
  rewrite Hbg in Hconv. injection Hconv as <-.
  apply draw_agents_appends in Hdraw as [Hax _].
  destruct Hax as (_ & _ & _ & _ & _ & Hf & _). congruence.
Qed.

End WindowFacts.

(** C10.  [update_agents] called before [create_window] does not trip over
    the missing attribute [bg_color]: it translates 'gray' instead and ends
    as the same call ends in a session whose window was created with the
    default 'gray', with the same frames and the same open figures; when it
    returns, exactly one frame has been appended.  That frame is the canvas
    of a figure whose axes have the face colour 'gray' and are switched
    off, and in which the hole of every ring is a disk of 'gray'; a pixel
    that no patch covers has the colour to which the backend clears the
    canvas of such a figure.  With its axes off, matplotlib does not paint
    the face of the axes: that colour is the white of the figure, not
    'gray'. *)
Theorem C10_capture_before_window `{Runtime} `{Backend}
        (agents : list Entity) (w : World) :
  bg_color (self w) = None ->
  fst (update_agents agents w)
  = fst ((create_window (Some "gray") ;;; update_agents agents)%M w)
  /\ frames (self (snd (update_agents agents w)))
     = frames (self (snd ((create_window (Some "gray") ;;; update_agents agents)%M w)))
  /\ open_figures (snd (update_agents agents w))
     = open_figures (snd ((create_window (Some "gray") ;;; update_agents agents)%M w))
  /\ (forall fig : Figure,
         figure_of (self w) (S (list_max (open_figures w))) agents = Ok fig ->
         ax_facecolor fig = Named "gray")
  /\ (fst (update_agents agents w) = Ok tt ->
      exists (fig : Figure) (frame : Np.ndarray) (rows cols : nat),
        figure_of (self w) (S (list_max (open_figures w))) agents = Ok fig
        /\ ax_facecolor fig = Named "gray"
        /\ axison fig = false
        /\ (forall c center r1 r2,
               In (RingEntity c center r1 r2) agents ->
               In (ring_inner center r1 (Named "gray")) (patches fig))
        /\ frames (self (snd (update_agents agents w))) = frames (self w) ++ [frame]
        /\ Np.shape frame = [rows; cols; 3%nat]
        /\ forall row col : nat,
            (row < rows)%nat -> (col < cols)%nat ->
            uncovered fig (patches fig) row col ->
            Np.pixel frame row col = rgb_bytes (clear_color fig)).
Proof.
  intros Hbg. unfold bind. rewrite create_window_run, !update_agents_run.
  change (open_figures (windowed w (Some "gray"))) with (open_figures w).
  change (figure_created (self (windowed w (Some "gray"))))
    with (figure_created (self w)).
  change (self (windowed w (Some "gray")))
    with (with_window_created (with_bg_color (self w) (Some (Some "gray"))) true).
  rewrite <- (frame_of_default_bg (self w) _ agents Hbg).
  destruct (frame_of _ _ _) as [frame|e] eqn:Hframe.
  - cbn [fst snd]. repeat (split; [reflexivity|]).
    split; [intros fig; now apply figure_of_facecolor|].
    intros _. unfold frame_of in Hframe.
    destruct (figure_of _ _ _) as [fig|] eqn:Hfig; [|discriminate].
    cbn [rbind] in Hframe.
    apply grab_frame_inv in Hframe as (cols & rows & _ & _ & ->).
    exists fig. eexists. exists rows, cols.
    split; [reflexivity|].
    split; [now apply (figure_of_facecolor _ _ _ _ Hbg Hfig)|].
    split; [now apply (figure_of_axes_off _ _ _ _ Hfig)|].
    split; [intros c center r1 r2; now apply (ring_holes _ _ _ _ Hbg Hfig)|].
    split; [reflexivity|]. split; [reflexivity|].
    intros row col Hrow Hcol Hun.
    rewrite (frame_pixel fig cols rows row col Hrow Hcol).
    unfold Mpl.paint. now rewrite (paint_uncovered _ _ _ _ Hun).
  - cbn [fst snd]. destruct (figure_created (self w)); repeat split;
      try (intros fig; now apply figure_of_facecolor); discriminate.
Qed.

Lemma C10_capture_before_window_witness :
  bg_color (self Demo.small_world) = None
  /\ fst (@update_agents Ideal.runtime Ideal.backend [] Demo.small_world) = Ok tt
  /\ Ideal.resolve (Named "gray") = Some (128, 128, 128, 255)
  /\ exists (fig : Figure) (frame : Np.ndarray),
      @figure_of Ideal.runtime Ideal.backend (self Demo.small_world) 1 [] = Ok fig
      /\ ax_facecolor fig = Named "gray"
      /\ axison fig = false
      /\ Ideal.base_color fig = (255, 255, 255, 255)
      /\ frames (self (snd (@update_agents Ideal.runtime Ideal.backend []
                              Demo.small_world)))
         = [frame]
      /\ Np.shape frame = [8; 8; 3]%nat
      /\ forall row col : nat,
          (row < 8)%nat -> (col < 8)%nat ->
          Np.pixel frame row col = [255; 255; 255].
Proof.
  split; [reflexivity|]. split; [vm_compute; reflexivity|].
  split; [reflexivity|].
  destruct (@C10_capture_before_window Ideal.runtime Ideal.backend
              [] Demo.small_world eq_refl)
    as (_ & _ & _ & _ & Hdraws).
  destruct (Hdraws ltac:(vm_compute; reflexivity))
    as (fig & frame & rows & cols & Hfig & Hface & Hoff & _ & Hframes & Hshape & Hpix).
  assert (fig = Mpl.subplots_adjust
                  (Mpl.axis_off
                     (Mpl.set_aspect_equal
                        (Mpl.with_facecolor
                           (Mpl.with_ylim
                              (Mpl.with_xlim
                                 (Mpl.new_figure 1
                                    (Float64.div (Demo.F 8) (Demo.F 100),
                                     Float64.div (Demo.F 8) (Demo.F 100)) 100)
                                 (Demo.F 0, Demo.F 4))
                              (Demo.F 0, Demo.F 4))
                           (Named "gray")))) 0 1 1 0) as ->
      by (vm_compute in Hfig; now injection Hfig as <-).
  assert (frames (self (snd (@update_agents Ideal.runtime Ideal.backend []
                               Demo.small_world)))
          = frames (self Demo.small_world) ++ [frame]) as Hf by exact Hframes.
  assert (exists raw, frames (self (snd (@update_agents Ideal.runtime Ideal.backend []
                                           Demo.small_world))) = [raw]
                      /\ Np.shape raw = [8; 8; 3]%nat) as (raw & Hraw & Hraw_shape)
      by (eexists; split; vm_compute; reflexivity).
  rewrite Hraw in Hf. cbn [Demo.small_world Demo.world_of self init frames app] in Hf.
  injection Hf as ->.
  rewrite Hraw_shape in Hshape. injection Hshape as <- <-.
  eexists. exists frame.
  split; [vm_compute; reflexivity|].
  split; [reflexivity|]. split; [reflexivity|]. split; [reflexivity|].
  split; [exact Hraw|]. split; [exact Hraw_shape|].
  intros row col Hrow Hcol.
  rewrite (Hpix row col Hrow Hcol); [reflexivity|].
  intros p [].
Defined.

(* ===================================================================== *)
(** * More on the colour translator *)
(* ===================================================================== *)

Section TokenFacts.
Context `{Runtime}.

Lemma zeros_digits (k : nat) : Str.all_digits (zeros k) = true.
Proof. induction k as [|k IH]; [reflexivity|]. cbn. exact IH. Qed.

Lemma zeros_length (k : nat) : String.length (zeros k) = k.
Proof. induction k as [|k IH]; [reflexivity|]. cbn. now rewrite IH. Qed.

Lemma zeros_value (k : nat) (ds : string) :
  Str.int_of_digits (zeros k ++ ds) = Str.int_of_digits ds.
Proof.
  unfold Str.int_of_digits. induction k as [|k IH]; [reflexivity|].
  cbn [zeros append Str.int_of_digits_acc]. exact IH.
Qed.

Lemma lower_length (s : string) : String.length (Str.lower s) = String.length s.
Proof. induction s as [|c s IH]; [reflexivity|]. cbn. now rewrite IH. Qed.

(** Digits followed by a line feed: the digits are split off, the line feed
    is left. *)
Lemma span_digits_newline (ds : string) :
  Str.all_digits ds = true -> Str.span_digits (ds ++ newline) = (ds, newline).
Proof.
  induction ds as [|c ds IH]; [reflexivity|].
  cbn [Str.all_digits]. intros Hd. apply andb_prop in Hd as [Hc Hds].
  cbn [append Str.span_digits]. now rewrite Hc, (IH Hds).
Qed.

Lemma re_match_gray_newline (spelling ds : string) :
  spelling = "gray" \/ spelling = "grey" ->
  Str.all_digits ds = true -> (1 <= String.length ds)%nat ->
  re_match_gray (spelling ++ ds ++ newline) = Some ds.
Proof.
  intros Hsp Hds Hlen.
  assert (re_match_gray (spelling ++ ds ++ newline)
          = let (g, tl) := Str.span_digits (ds ++ newline) in
            if negb (String.length g =? 0)%nat
               && (String.eqb tl "" || String.eqb tl (String "010" ""))
            then Some g else None) as ->
      by (destruct Hsp as [-> | ->]; reflexivity).
  rewrite (span_digits_newline ds Hds).
  destruct ds as [|c ds]; [simpl in Hlen; lia|reflexivity].
Qed.

(** The values of the dict [tk_to_mpl]. *)
Lemma tk_to_mpl_values (k v : string) :
  dict_get k tk_to_mpl = Some v ->
  v = "gray" \/ v = "lightgray" \/ v = "darkgray".
Proof.
  unfold tk_to_mpl. cbn [dict_get].
  repeat match goal with
         | |- (if ?b then _ else _) = _ -> _ => destruct b
         end;
    intros [= <-]; auto.
Qed.

End TokenFacts.

(** X1.  A grayscale token is translated by the value of its digits, however
    they are written: for a prefix that lower-cases to "gray" or "grey" and
    a literal of 1 to 640 digits whose value [v] converts to a float, the
    result is the neutral colour of level [v / 100.0].  Leading zeros do not
    matter: "gray050" is "gray50". *)
Theorem X1_gray_by_value `{Runtime} :
  (forall (prefix ds : string),
      Str.lower prefix = "gray" \/ Str.lower prefix = "grey" ->
      Str.all_digits ds = true ->
      (1 <= String.length ds <= 640)%nat ->
      Str.int_of_digits ds < Float64.overflow_threshold ->
      convert_tk_color (Some (prefix ++ ds)%string)
      = Ok (RGB (gray_level (Str.int_of_digits ds))
                (gray_level (Str.int_of_digits ds))
                (gray_level (Str.int_of_digits ds))))
  /\ (forall (prefix ds : string) (k : nat),
         Str.lower prefix = "gray" \/ Str.lower prefix = "grey" ->
         Str.all_digits ds = true ->
         (1 <= String.length ds)%nat ->
         (k + String.length ds <= 640)%nat ->
         convert_tk_color (Some (prefix ++ zeros k ++ ds)%string)
         = convert_tk_color (Some (prefix ++ ds)%string)).
Proof.
  assert (forall prefix ds,
             Str.lower prefix = "gray" \/ Str.lower prefix = "grey" ->
             Str.all_digits ds = true ->
             (1 <= String.length ds <= 640)%nat ->
             convert_tk_color (Some (prefix ++ ds)%string)
             = (level <- Float64.int_truediv (Str.int_of_digits ds) hundred ;;
                Ok (RGB level level level))%py) as Hshort.
  { intros prefix ds Hp Hall Hlen.
    rewrite (convert_gray_literal prefix ds Hp Hall (proj1 Hlen)).
    rewrite (py_int_short ds Hall (proj1 Hlen)); [reflexivity|].
    unfold str_digits_check_threshold. lia. }
  split.
  - intros prefix ds Hp Hall Hlen Hv. rewrite (Hshort prefix ds Hp Hall Hlen).
    rewrite (level_of_int (Str.int_of_digits ds)
               (int_of_digits_acc_nonneg ds 0 Hall (Z.le_refl 0))).
    destruct (Z.leb_spec Float64.overflow_threshold (Str.int_of_digits ds));
      [lia|reflexivity].
  - intros prefix ds k Hp Hall Hlen Hk.
    rewrite (Hshort prefix ds Hp Hall ltac:(lia)).
    rewrite (Hshort prefix (zeros k ++ ds)%string Hp).
    + now rewrite zeros_value.
    + now rewrite all_digits_app, zeros_digits.
    + rewrite string_length_app, zeros_length. lia.
Qed.

Lemma X1_gray_by_value_witness :
  (Str.lower "Gray" = "gray" \/ Str.lower "Gray" = "grey")
  /\ Str.all_digits "50" = true
  /\ (1 <= String.length "50")%nat
  /\ (1 + String.length "50" <= 640)%nat
  /\ @convert_tk_color Ideal.runtime (Some ("Gray" ++ zeros 1 ++ "50")%string)
     = @convert_tk_color Ideal.runtime (Some ("Gray" ++ "50")%string).
Proof.
  split; [left; reflexivity|]. split; [reflexivity|].
  split; [cbn; lia|]. split; [cbn; lia|].
  apply (proj2 (@X1_gray_by_value Ideal.runtime) "Gray" "50" 1%nat).
  - left; reflexivity.
  - reflexivity.
  - cbn; lia.
  - cbn; lia.
Defined.

(** X2.  The pattern ends in [$], which also matches before a line feed
    that ends the string: a grayscale token followed by one line feed is
    translated as the token without it. *)
Theorem X2_trailing_newline `{Runtime} (prefix ds : string) :
  Str.lower prefix = "gray" \/ Str.lower prefix = "grey" ->
  Str.all_digits ds = true ->
  (1 <= String.length ds)%nat ->
  convert_tk_color (Some (prefix ++ ds ++ newline)%string)
  = convert_tk_color (Some (prefix ++ ds)%string).
Proof.
  intros Hp Hall Hlen.
  rewrite (convert_gray_literal prefix ds Hp Hall Hlen).
  unfold convert_tk_color.
  rewrite !lower_app, (lower_digits ds Hall).
  change (Str.lower newline) with newline.
  now rewrite (re_match_gray_newline _ ds Hp Hall Hlen).
Qed.

Lemma X2_trailing_newline_witness :
  (Str.lower "grey" = "gray" \/ Str.lower "grey" = "grey")
  /\ Str.all_digits "80" = true
  /\ (1 <= String.length "80")%nat
  /\ @convert_tk_color Ideal.runtime (Some ("grey" ++ "80" ++ newline)%string)
     = @convert_tk_color Ideal.runtime (Some ("grey" ++ "80")%string).
Proof.
  split; [right; reflexivity|]. split; [reflexivity|]. split; [cbn; lia|].
  apply (@X2_trailing_newline Ideal.runtime "grey" "80").
  - right; reflexivity.
  - reflexivity.
  - cbn; lia.
Defined.

(** The results of the translator, case by case. *)
Lemma convert_results `{Runtime} (color : option string) (c : mpl_color) :
  convert_tk_color color = Ok c ->
  match c with
  | RGB r g b =>
      r = g /\ g = b
      /\ exists s group1,
          color = Some s
          /\ re_match_gray (Str.lower s) = Some group1
          /\ r = gray_level (Str.int_of_digits group1)
  | Named name =>
      (color = None /\ name = "blue")
      \/ exists s,
          color = Some s
          /\ re_match_gray (Str.lower s) = None
          /\ (name = s \/ name = "gray" \/ name = "lightgray" \/ name = "darkgray")
  end.
Proof.
  destruct color as [s|]; [|intros [= <-]; now left].
  unfold convert_tk_color.
  destruct (re_match_gray (Str.lower s)) as [group1|] eqn:Hre.
  - destruct (re_match_gray_group _ _ Hre) as [Hall Hlen].
    destruct (py_int group1) as [n|] eqn:Hint; [|discriminate]. cbn [rbind].
    rewrite (py_int_literal group1 Hall Hlen) in Hint.
    destruct (_ && _ && _) in Hint; [discriminate|]. injection Hint as <-.
    rewrite (level_of_int (Str.int_of_digits group1)
               (int_of_digits_acc_nonneg group1 0 Hall (Z.le_refl 0))).
    destruct (Float64.overflow_threshold <=? Str.int_of_digits group1);
      [discriminate|].
    cbn [rbind]. intros [= <-]. repeat split. now exists s, group1.
  - destruct (dict_get (Str.lower s) tk_to_mpl) as [v|] eqn:Hdict; intros [= <-];
      right; exists s; (split; [reflexivity|split; [exact Hre|]]).
    + right. exact (tk_to_mpl_values _ _ Hdict).
    + now left.
Qed.

(** X3.  What [convert_tk_color] can return.  A tuple is returned only for
    a token that matches the grayscale pattern, and its three channels are
    equal: the level of the number in the token.  A name is returned for
    every other token and for an absent one: "blue", one of the three
    matplotlib grays, or the token itself. *)
Theorem X3_results `{Runtime} (color : option string) (c : mpl_color) :
  convert_tk_color color = Ok c ->
  match c with
  | RGB r g b =>
      r = g /\ g = b
      /\ exists s group1,
          color = Some s
          /\ re_match_gray (Str.lower s) = Some group1
          /\ r = gray_level (Str.int_of_digits group1)
  | Named name =>
      (color = None /\ name = "blue")
      \/ exists s,
          color = Some s
          /\ re_match_gray (Str.lower s) = None
          /\ (name = s \/ name = "gray" \/ name = "lightgray" \/ name = "darkgray")
  end.
Proof. apply convert_results. Qed.

Lemma X3_results_witness :
  @convert_tk_color Ideal.runtime (Some "LightGrey") = Ok (Named "lightgray")
  /\ ((Some "LightGrey" = None /\ "lightgray" = "blue")
      \/ exists s,
          Some "LightGrey" = Some s
          /\ re_match_gray (Str.lower s) = None
          /\ ("lightgray" = s \/ "lightgray" = "gray"
              \/ "lightgray" = "lightgray" \/ "lightgray" = "darkgray")).
Proof.
  split; [reflexivity|].
  apply (@X3_results Ideal.runtime (Some "LightGrey") (Named "lightgray")).
  reflexivity.
Defined.

(** X4.  Translation does not look at the case of letters, except to hand
    back a token it does not know: two tokens that are equal when
    lower-cased have the same translation, unless each is returned as it
    is. *)
Theorem X4_case_insensitive `{Runtime} (s t : string) :
  Str.lower s = Str.lower t ->
  convert_tk_color (Some s) = convert_tk_color (Some t)
  \/ (convert_tk_color (Some s) = Ok (Named s)
      /\ convert_tk_color (Some t) = Ok (Named t)).
Proof.
  intros Hst. unfold convert_tk_color. rewrite Hst.
  destruct (re_match_gray (Str.lower t)); [now left|].
  destruct (dict_get (Str.lower t) tk_to_mpl); [now left|now right].
Qed.

Lemma X4_case_insensitive_witness :
  Str.lower "DARKGREY" = Str.lower "DarkGrey"
  /\ (@convert_tk_color Ideal.runtime (Some "DARKGREY")
      = @convert_tk_color Ideal.runtime (Some "DarkGrey")
      \/ (@convert_tk_color Ideal.runtime (Some "DARKGREY") = Ok (Named "DARKGREY")
          /\ @convert_tk_color Ideal.runtime (Some "DarkGrey")
             = Ok (Named "DarkGrey"))).
Proof.
  split; [reflexivity|].
  apply (@X4_case_insensitive Ideal.runtime "DARKGREY" "DarkGrey"). reflexivity.
Defined.

(** X5.  The aliases are found in any case, with "grey" respelt as "gray";
    and a name that the translator returns is translated to itself, so that
    translating twice is translating once. *)
Theorem X5_names_are_fixed `{Runtime} :
  (forall s v : string,
      In (Str.lower s, v) tk_to_mpl -> convert_tk_color (Some s) = Ok (Named v))
  /\ (forall (color : option string) (name : string),
         convert_tk_color color = Ok (Named name) ->
         convert_tk_color (Some name) = Ok (Named name)).
Proof.
  split.
  - intros s v Hin. unfold convert_tk_color. unfold tk_to_mpl in Hin.
    cbn [In] in Hin.
    repeat destruct Hin as [Hin | Hin]; try contradiction;
      injection Hin as Hs <-; rewrite <- Hs; reflexivity.
  - intros color name Hc.
    pose proof (convert_results color (Named name) Hc) as Hcases.
    cbn in Hcases.
    destruct Hcases as [[_ ->] | (s & -> & Hre & [-> | [-> | [-> | ->]]])];
      try reflexivity.
    exact Hc.
Qed.

Lemma X5_names_are_fixed_witness :
  In (Str.lower "GREY", "gray") tk_to_mpl
  /\ @convert_tk_color Ideal.runtime (Some "GREY") = Ok (Named "gray")
  /\ @convert_tk_color Ideal.runtime (Some "gray") = Ok (Named "gray").
Proof.
  split; [right; left; reflexivity|].
  split.
  - apply (proj1 (@X5_names_are_fixed Ideal.runtime) "GREY" "gray").
    right; left; reflexivity.
  - apply (proj2 (@X5_names_are_fixed Ideal.runtime) (Some "GREY") "gray").
    reflexivity.
Defined.

(* ===================================================================== *)
(** * More on the loop over the agents *)
(* ===================================================================== *)

Section AgentFacts.
Context `{Runtime} `{Backend}.

(** Before the loop, a capture either fails whatever the agents are, or
    has a background colour and a figure to start the loop from. *)
Lemma frame_of_loop (s : VideoVisualizer) (num : nat) :
  (exists e, forall agents, frame_of s num agents = Raise e)
  \/ (exists bg fig0,
         forall agents,
           frame_of s num agents
           = (fig <- draw_agents bg fig0 agents ;; grab_frame fig)%py).
Proof.
  unfold frame_of, figure_of, compose_figure.
  destruct (inches (width s) (ppm s)) as [fw|e]; [|left; now exists e].
  destruct (inches (height s) (ppm s)) as [fh|e]; [|left; now exists e].
  cbn [rbind]. destruct (raise_unless _ _) as [[]|e]; [|left; now exists e].
  cbn [rbind].
  destruct (Mpl.set_xlim _ _ _) as [f1|e]; [|left; now exists e]. cbn [rbind].
  destruct (Mpl.set_ylim _ _ _) as [f2|e]; [|left; now exists e]. cbn [rbind].
  destruct (convert_tk_color _) as [bg|e]; [|left; now exists e]. cbn [rbind].
  destruct (Mpl.set_facecolor _ _) as [f3|e]; [|left; now exists e]. cbn [rbind].
  right. eexists bg, _. intros agents. reflexivity.
Qed.

(** Captures of two lists of agents that the loop cannot tell apart. *)
Lemma update_agents_ext (agents agents' : list Entity) (w : World) :
  (forall bg fig, draw_agents bg fig agents = draw_agents bg fig agents') ->
  update_agents agents w = update_agents agents' w.
Proof.
  intros Hsame. rewrite !update_agents_run.
  assert (forall s num, frame_of s num agents = frame_of s num agents') as ->;
    [|reflexivity].
  intros s num. unfold frame_of, figure_of, compose_figure.
  destruct (inches (width s) (ppm s)) as [fw|]; [|reflexivity].
  destruct (inches (height s) (ppm s)) as [fh|]; [|reflexivity].
  cbn [rbind]. destruct (raise_unless _ _); [|reflexivity]. cbn [rbind].
  destruct (Mpl.set_xlim _ _ _) as [f1|]; [|reflexivity]. cbn [rbind].
  destruct (Mpl.set_ylim _ _ _) as [f2|]; [|reflexivity]. cbn [rbind].
  destruct (convert_tk_color _) as [bg|]; [|reflexivity]. cbn [rbind].
  destruct (Mpl.set_facecolor _ _) as [f3|]; [|reflexivity]. cbn [rbind].
  now rewrite Hsame.
Qed.

Lemma draw_agents_map (f : Entity -> Entity) (bg : mpl_color) :
  (forall fig agent, draw_agent bg fig (f agent) = draw_agent bg fig agent) ->
  forall agents fig,
    draw_agents bg fig (map f agents) = draw_agents bg fig agents.
Proof.
  intros Hf. induction agents as [|agent rest IH]; intros fig; [reflexivity|].
  cbn [map draw_agents]. rewrite Hf.
  destruct (draw_agent bg fig agent) as [fig'|]; cbn [rbind]; [apply IH|reflexivity].
Qed.

Lemma draw_agent_fill_default (bg : mpl_color) (fig : Figure) (agent : Entity) :
  draw_agent bg fig (fill_default agent) = draw_agent bg fig agent.
Proof.
  unfold fill_default.
  destruct agent as [[[t|]|] center r1 r2 | [[t|]|] center r | [[t|]|] corners | [[t|]|]];
    reflexivity.
Qed.

(** An object of no known class adds nothing, once its colour is
    translated. *)
Lemma draw_other (bg : mpl_color) (fig : Figure) (c : option token) :
  draw_agent bg fig (OtherObject c)
  = (_ <- convert_tk_color (match c with Some t => t | None => Some "blue" end) ;;
     Ok fig)%py.
Proof. reflexivity. Qed.

(** A circle or rectangle adds one patch of its shape in its translated
    colour. *)
Lemma draw_solid (bg : mpl_color) (fig fig' : Figure) (agent : Entity) (sh : Shape) :
  solid_shape agent = Some sh ->
  draw_agent bg fig agent = Ok fig' ->
  exists color,
    convert_tk_color (match color_attr agent with Some t => t | None => Some "blue" end)
    = Ok color
    /\ to_rgba color <> None
    /\ fig' = Mpl.add_patch fig
                {| patch_shape := sh; facecolor := color; edgecolor := None |}.
Proof.
  destruct agent as [c center r1 r2 | c center r | c corners | c];
    try discriminate; intros [= <-]; unfold draw_agent; cbn [color_attr];
    destruct (convert_tk_color _) as [color|]; try discriminate; cbn [rbind].
  - destruct (Mpl.MplCircle _ _ _) as [p|] eqn:Hp; [|discriminate].
    cbn [rbind]. intros [= <-]. apply MplCircle_inv in Hp as [-> Hc].
    now exists color.
  - destruct (Mpl.MplPolygon _ _) as [p|] eqn:Hp; [|discriminate].
    cbn [rbind]. intros [= <-]. apply MplPolygon_inv in Hp as [-> Hc].
    now exists color.
Qed.

(** The colour of a pixel under the last patch that covers it. *)
Lemma paint_top (fig : Figure) (row col : nat) (earlier later : list Patch)
      (p : Patch) (c : rgba) :
  patches fig = earlier ++ [p] ++ later ->
  uncovered fig later row col ->
  covers fig (patch_shape p) row col = true ->
  to_rgba (facecolor p) = Some c ->
  opaque c ->
  Mpl.paint fig row col = c.
Proof.
  intros Hps Hlater Hcov Hc Hop. unfold Mpl.paint. rewrite Hps.
  rewrite !fold_left_app, (paint_uncovered _ _ _ _ Hlater).
  cbn [fold_left]. unfold Mpl.paint_patch. rewrite Hcov, Hc. apply Hop.
Qed.

(** The figure of a capture, split at one of its agents. *)
Lemma figure_of_split (s : VideoVisualizer) (num : nat) (pre post : list Entity)
      (agent : Entity) (fig : Figure) :
  figure_of s num (pre ++ agent :: post) = Ok fig ->
  exists bg fig_pre fig_agent,
    convert_tk_color (match bg_color s with Some t => t | None => Some "gray" end)
    = Ok bg
    /\ ax_facecolor fig_pre = bg
    /\ draw_agent bg fig_pre agent = Ok fig_agent
    /\ draw_agents bg fig_agent post = Ok fig.
Proof.
  unfold figure_of.
  destruct (inches (width s) (ppm s)) as [fw|]; [|discriminate].
  destruct (inches (height s) (ppm s)) as [fh|]; [|discriminate].
  cbn [rbind]. destruct (raise_unless _ _); [|discriminate]. cbn [rbind].
  intros Hc.
  apply compose_figure_inv in Hc
    as (bg & fig1 & Hbg & _ & _ & _ & _ & Hface & _ & _ & Hdraw).
  rewrite draw_agents_app in Hdraw.
  destruct (draw_agents bg fig1 pre) as [fig_pre|] eqn:Hpre; [|discriminate].
  cbn [rbind draw_agents] in Hdraw.
  destruct (draw_agent bg fig_pre agent) as [fig_agent|] eqn:Hagent; [|discriminate].
  cbn [rbind] in Hdraw.
  exists bg, fig_pre, fig_agent. repeat split; try assumption.
  apply draw_agents_appends in Hpre as [Hax _].
  destruct Hax as (_ & _ & _ & _ & _ & Hf & _). congruence.
Qed.

End AgentFacts.

(** X6.  An agent without a colour is drawn blue: whether the attribute
    [color] is missing, is [None] or is 'blue' makes no difference to a
    capture, whatever the kind of the agent. *)
Theorem X6_default_blue `{Runtime} `{Backend} (agents : list Entity) (w : World) :
  update_agents (map fill_default agents) w = update_agents agents w.
Proof.
  apply update_agents_ext. intros bg fig.
  apply draw_agents_map. intros fig' agent. apply draw_agent_fill_default.
Qed.

(** X7.  An object that is neither ring, circle nor rectangle is skipped:
    when its colour token can be translated, a capture with it among the
    agents is the capture without it.  Its colour is translated all the
    same, so a token that cannot be translated still makes the capture
    raise. *)
Theorem X7_unknown_skipped `{Runtime} `{Backend}
        (pre post : list Entity) (c : option token) (w : World) :
  (forall color,
      convert_tk_color (match c with Some t => t | None => Some "blue" end)
      = Ok color ->
      update_agents (pre ++ OtherObject c :: post) w = update_agents (pre ++ post) w)
  /\ (forall e w0,
         convert_tk_color (match c with Some t => t | None => Some "blue" end)
         = Raise e ->
         update_agents (pre ++ post) w = (Ok tt, w0) ->
         exists w', update_agents (pre ++ OtherObject c :: post) w = (Raise e, w')
                    /\ frames (self w') = frames (self w)).
Proof.
  split.
  - intros color Hcolor. apply update_agents_ext. intros bg fig.
    rewrite !draw_agents_app. destruct (draw_agents bg fig pre) as [fig'|];
      cbn [rbind draw_agents]; [|reflexivity].
    rewrite draw_other, Hcolor. reflexivity.
  - intros e w0 Hcolor Hok.
    rewrite update_agents_run in Hok. rewrite update_agents_run.
    destruct (frame_of_loop (self w) (S (list_max (open_figures w))))
      as [[e' Hfail] | (bg & fig0 & Hloop)].
    + rewrite Hfail in Hok. discriminate.
    + rewrite Hloop in *. rewrite draw_agents_app in *.
      destruct (draw_agents bg fig0 pre) as [fig'|]; [|discriminate].
      cbn [rbind draw_agents]. rewrite draw_other, Hcolor. cbn [rbind].
      eexists. split; [reflexivity|].
      destruct (figure_created (self w)); reflexivity.
Qed.

Lemma X7_unknown_skipped_witness :
  @convert_tk_color Ideal.runtime (Some "red") = Ok (Named "red")
  /\ @update_agents Ideal.runtime Ideal.backend
       ([Demo.ring] ++ OtherObject (Some (Some "red")) :: [Demo.disk])
       Demo.small_world
     = @update_agents Ideal.runtime Ideal.backend ([Demo.ring] ++ [Demo.disk])
         Demo.small_world.
Proof.
  split; [reflexivity|].
  apply (proj1 (@X7_unknown_skipped Ideal.runtime Ideal.backend
                  [Demo.ring] [Demo.disk] (Some (Some "red")) Demo.small_world)
           (Named "red")).
  reflexivity.
Defined.

(** X8.  A capture with no agents stores a frame of one colour, that of the
    cleared canvas: the figure it draws has no patch. *)
Theorem X8_empty_scene `{Runtime} `{Backend} (w w' : World) :
  update_agents [] w = (Ok tt, w') ->
  exists (fig : Figure) (frame : Np.ndarray) (rows cols : nat),
    figure_of (self w) (S (list_max (open_figures w))) [] = Ok fig
    /\ patches fig = []
    /\ frames (self w') = frames (self w) ++ [frame]
    /\ Np.shape frame = [rows; cols; 3%nat]
    /\ forall row col : nat,
        (row < rows)%nat -> (col < cols)%nat ->
        Np.pixel frame row col = rgb_bytes (clear_color fig).
Proof.
  intros Hrun. apply update_agents_ok in Hrun as (frame & Hframe & ->).
  unfold frame_of in Hframe.
  destruct (figure_of _ _ _) as [fig|] eqn:Hfig; [|discriminate].
  cbn [rbind] in Hframe.
  apply grab_frame_inv in Hframe as (cols & rows & _ & _ & ->).
  assert (patches fig = []) as Hps.
  { unfold figure_of in Hfig.
    destruct (inches (width (self w)) (ppm (self w))) as [fw|]; [|discriminate].
    destruct (inches (height (self w)) (ppm (self w))) as [fh|]; [|discriminate].
    cbn [rbind] in Hfig. destruct (raise_unless _ _); [|discriminate].
    cbn [rbind] in Hfig.
    apply compose_figure_inv in Hfig
      as (bg & fig1 & _ & _ & _ & _ & _ & _ & _ & Hp & Hdraw).
    cbn [draw_agents] in Hdraw. injection Hdraw as <-. exact Hp. }
  exists fig. eexists. exists rows, cols.
  repeat (split; [first [reflexivity | assumption]|]).
  intros row col Hrow Hcol.
  rewrite (frame_pixel fig cols rows row col Hrow Hcol).
  unfold Mpl.paint. now rewrite Hps.
Qed.

Lemma X8_empty_scene_witness :
  exists w' : World,
    @update_agents Ideal.runtime Ideal.backend [] Demo.small_world = (Ok tt, w')
    /\ exists frame, frames (self w') = frames (self Demo.small_world) ++ [frame].
Proof.
  eexists. split; [vm_compute; reflexivity|].
  destruct (@X8_empty_scene Ideal.runtime Ideal.backend Demo.small_world _
              ltac:(vm_compute; reflexivity))
    as (_ & frame & _ & _ & _ & _ & Hframes & _).
  exists frame. exact Hframes.
Defined.

(** X9.  The order of the agents is the order of the layers.  A circle or
    a rectangle is drawn as one patch of its shape in its translated
    colour, after the patches of the agents before it and before those of
    the agents after it; in the stored frame a pixel that it covers, and
    that none of the later patches covers, has its colour (the colour being
    opaque, and the smoothing of edges aside: the pixels an outline passes
    through are mixed by matplotlib and are not meant). *)
Theorem X9_later_agents_on_top `{Runtime} `{Backend}
        (pre post : list Entity) (agent : Entity) (sh : Shape) (w w' : World) :
  solid_shape agent = Some sh ->
  update_agents (pre ++ agent :: post) w = (Ok tt, w') ->
  exists (color : mpl_color) (c : rgba) (fig : Figure)
         (earlier later : list Patch) (frame : Np.ndarray) (rows cols : nat),
    convert_tk_color
      (match color_attr agent with Some t => t | None => Some "blue" end) = Ok color
    /\ to_rgba color = Some c
    /\ figure_of (self w) (S (list_max (open_figures w))) (pre ++ agent :: post)
       = Ok fig
    /\ patches fig
       = earlier ++ [{| patch_shape := sh; facecolor := color; edgecolor := None |}]
                 ++ later
    /\ frames (self w') = frames (self w) ++ [frame]
    /\ Np.shape frame = [rows; cols; 3%nat]
    /\ forall row col : nat,
        (row < rows)%nat -> (col < cols)%nat ->
        uncovered fig later row col ->
        covers fig sh row col = true ->
        opaque c ->
        Np.pixel frame row col = rgb_bytes c.
Proof.
  intros Hsolid Hrun.
  apply update_agents_ok in Hrun as (frame & Hframe & ->).
  unfold frame_of in Hframe.
  destruct (figure_of _ _ _) as [fig|] eqn:Hfig; [|discriminate].
  cbn [rbind] in Hframe.
  destruct (figure_of_split _ _ _ _ _ _ Hfig)
    as (bg & fig_pre & fig_agent & _ & _ & Hagent & Hpost).
  destruct (draw_solid _ _ _ _ _ Hsolid Hagent) as (color & Hcolor & Hc_ok & ->).
  destruct (to_rgba color) as [c|] eqn:Ec; [|contradiction].
  apply draw_agents_appends in Hpost as (_ & later & Hlater).
  apply grab_frame_inv in Hframe as (cols & rows & _ & _ & ->).
  assert (patches fig
          = patches fig_pre
            ++ [{| patch_shape := sh; facecolor := color; edgecolor := None |}]
            ++ later) as Hps
      by (rewrite Hlater; cbn; now rewrite <- app_assoc).
  exists color, c, fig, (patches fig_pre), later. eexists. exists rows, cols.
  repeat (split; [first [reflexivity | assumption]|]).
  intros row col Hrow Hcol Hun Hcov Hop.
  rewrite (frame_pixel fig cols rows row col Hrow Hcol).
  now rewrite (paint_top fig row col _ _ _ c Hps Hun Hcov Ec Hop).
Qed.

Lemma X9_later_agents_on_top_witness :
  solid_shape Demo.disk
  = Some (Circle (Demo.F 2, Demo.F 2) Demo.three_quarters)
  /\ exists w' : World,
      @update_agents Ideal.runtime Ideal.backend ([Demo.ring] ++ Demo.disk :: [])
        Demo.small_world
      = (Ok tt, w')
      /\ exists frame, frames (self w') = frames (self Demo.small_world) ++ [frame].
Proof.
  split; [reflexivity|].
  eexists. split; [vm_compute; reflexivity|].
  destruct (@X9_later_agents_on_top Ideal.runtime Ideal.backend
              [Demo.ring] [] Demo.disk
              (Circle (Demo.F 2, Demo.F 2) Demo.three_quarters)
              Demo.small_world _ eq_refl ltac:(vm_compute; reflexivity))
    as (_ & _ & _ & _ & _ & frame & _ & _ & _ & _ & _ & _ & Hframes & _).
  exists frame. exact Hframes.
Defined.

(* ===================================================================== *)
(** * Sessions of calls *)
(* ===================================================================== *)

Section SessionTraces.
Context `{Runtime} `{Backend}.

Lemma rgb_bytes_length (l : list rgba) :
  List.length (flat_map rgb_bytes l) = (3 * List.length l)%nat.
Proof.
  induction l as [|[[[r g] b] a] l IH]; [reflexivity|].
  cbn [flat_map rgb_bytes app List.length]. rewrite IH. lia.
Qed.

(** The frame of a capture has the recorder's shape and fills it. *)
Lemma frame_of_well_shaped (s : VideoVisualizer) (num : nat) (agents : list Entity)
      (frame : Np.ndarray) :
  frame_of s num agents = Ok frame -> well_shaped s frame.
Proof.
  intros Hf. split; [exact (grab_frame_shape _ _ _ _ Hf)|].
  unfold frame_of in Hf. destruct (figure_of s num agents) as [fig|]; [|discriminate].
  cbn [rbind] in Hf. apply grab_frame_inv in Hf as (cols & rows & _ & _ & ->).
  cbn [Np.data Np.shape Np.size_of fold_right].
  rewrite rgb_bytes_length, canvas_pixels_length. lia.
Qed.

Lemma frame_shape_ext (s s' : VideoVisualizer) :
  width s = width s' -> height s = height s' -> ppm s = ppm s' ->
  frame_shape s = frame_shape s'.
Proof. intros Hw Hh Hp. unfold frame_shape. now rewrite Hw, Hh, Hp. Qed.

(** A save leaves the recorder and the open figures alone; it adds a file
    only from a buffer that is not empty. *)
Lemma save_video_run (filename : string) (fps : Z) (w : World) :
  save_video filename fps w
  = match frames (self w) with
    | [] => (Ok tt, printed w "No frames to save!")
    | _ :: _ =>
        if mimsave_ok filename (frames (self w)) fps
        then (Ok tt,
              {| self := self w; open_figures := open_figures w;
                 stdout := stdout w
                           ++ [("Saved "
                                ++ Str.decimal (Z.of_nat (List.length (frames (self w))))
                                ++ " frames to " ++ filename)%string];
                 files := files w ++ [(filename, (frames (self w), fps))] |})
        else (Raise BackendError, w)
    end.
Proof.
  unfold save_video, bind, get_self, imageio_mimsave, print.
  destruct (frames (self w)) as [|frame fs]; [reflexivity|].
  destruct (mimsave_ok filename (frame :: fs) fps); reflexivity.
Qed.

(** What one call does to the recorder. *)
Lemma after_self (w : World) (c : Call) :
  width (self (after w c)) = width (self w)
  /\ height (self (after w c)) = height (self w)
  /\ ppm (self (after w c)) = ppm (self w)
  /\ match c with
     | ClearFrames => frames (self (after w c)) = []
     | UpdateAgents agents =>
         frames (self (after w c)) = frames (self w)
         \/ exists frame,
             frame_of (self w) (S (list_max (open_figures w))) agents = Ok frame
             /\ frames (self (after w c)) = frames (self w) ++ [frame]
     | _ => frames (self (after w c)) = frames (self w)
     end.
Proof.
  unfold after. destruct c as [bg | agents | filename fps | filename fps | |];
    cbn [call];
    try (change (save_gif filename fps w) with (save_video filename fps w));
    try (rewrite save_video_run).
  - repeat split.
  - rewrite update_agents_run.
    destruct (frame_of _ _ _) as [frame|e] eqn:Hf; cbn [snd].
    + repeat split. right. now exists frame.
    + destruct (figure_created (self w)); repeat split; now left.
  - destruct (frames (self w)) as [|f fs] eqn:Hfs; [|destruct (mimsave_ok _ _ _)];
      cbn [snd self printed]; repeat split; exact Hfs.
  - destruct (frames (self w)) as [|f fs] eqn:Hfs; [|destruct (mimsave_ok _ _ _)];
      cbn [snd self printed]; repeat split; exact Hfs.
  - repeat split.
  - repeat split.
Qed.

(** What one call does to the registry of figures and to the files. *)
Lemma after_surroundings (w : World) (c : Call) :
  (open_figures (after w c) = open_figures w
   \/ (is_capture c = true
       /\ open_figures (after w c) = open_figures w ++ [S (list_max (open_figures w))]))
  /\ (files (after w c) = files w
      \/ exists filename fps,
          frames (self w) <> []
          /\ files (after w c) = files w ++ [(filename, (frames (self w), fps))]).
Proof.
  unfold after. destruct c as [bg | agents | filename fps | filename fps | |];
    cbn [call];
    try (change (save_gif filename fps w) with (save_video filename fps w));
    try (rewrite save_video_run).
  - split; now left.
  - rewrite update_agents_run.
    destruct (frame_of _ _ _) as [frame|e]; cbn [snd].
    + split; now left.
    + destruct (figure_created (self w)); (split; [|now left]);
        [right; now split|now left].
  - destruct (frames (self w)) as [|f fs] eqn:Hfs; [split; now left|].
    destruct (mimsave_ok _ _ _); cbn [snd]; (split; [now left|]); [|now left].
    right. exists filename, fps. split; [discriminate|reflexivity].
  - destruct (frames (self w)) as [|f fs] eqn:Hfs; [split; now left|].
    destruct (mimsave_ok _ _ _); cbn [snd]; (split; [now left|]); [|now left].
    right. exists filename, fps. split; [discriminate|reflexivity].
  - split; now left.
  - split; now left.
Qed.

Lemma session_cons (w : World) (c : Call) (cs : list Call) :
  session w (c :: cs) = session (after w c) cs.
Proof. reflexivity. Qed.

Lemma session_app (w : World) (cs cs' : list Call) :
  session w (cs ++ cs') = session (session w cs) cs'.
Proof. unfold session. apply fold_left_app. Qed.

(** No call changes the extent of the world or the density. *)
Lemma session_geometry (cs : list Call) :
  forall w,
    width (self (session w cs)) = width (self w)
    /\ height (self (session w cs)) = height (self w)
    /\ ppm (self (session w cs)) = ppm (self w).
Proof.
  induction cs as [|c cs IH]; intros w; [repeat split|].
  rewrite session_cons.
  destruct (IH (after w c)) as (Hw & Hh & Hp).
  destruct (after_self w c) as (Hw' & Hh' & Hp' & _).
  repeat split; congruence.
Qed.

Lemma well_shaped_ext (s s' : VideoVisualizer) (frame : Np.ndarray) :
  width s = width s' -> height s = height s' -> ppm s = ppm s' ->
  well_shaped s frame -> well_shaped s' frame.
Proof.
  intros Hw Hh Hp [Hshape Hdata]. split; [|exact Hdata].
  now rewrite <- (frame_shape_ext s s' Hw Hh Hp).
Qed.

Lemma after_well_shaped (w : World) (c : Call) :
  Forall (well_shaped (self w)) (frames (self w)) ->
  Forall (well_shaped (self w)) (frames (self (after w c))).
Proof.
  intros Hall. destruct (after_self w c) as (_ & _ & _ & Hframes).
  destruct c as [bg | agents | filename fps | filename fps | |];
    try (rewrite Hframes; assumption).
  - destruct Hframes as [-> | (frame & Hf & ->)]; [assumption|].
    apply Forall_app. split; [assumption|].
    constructor; [|constructor]. exact (frame_of_well_shaped _ _ _ _ Hf).
  - rewrite Hframes. constructor.
Qed.

Lemma session_well_shaped (cs : list Call) :
  forall w,
    Forall (well_shaped (self w)) (frames (self w)) ->
    Forall (well_shaped (self w)) (frames (self (session w cs))).
Proof.
  induction cs as [|c cs IH]; intros w Hall; [assumption|].
  rewrite session_cons.
  destruct (after_self w c) as (Hw & Hh & Hp & _).
  assert (Forall (well_shaped (self (after w c))) (frames (self (after w c)))) as Hc.
  { eapply Forall_impl; [|exact (after_well_shaped w c Hall)].
    intros f. apply well_shaped_ext; congruence. }
  eapply Forall_impl; [|exact (IH _ Hc)].
  intros f. apply well_shaped_ext; congruence.
Qed.

(** Without [clear_frames] the buffer only grows, by at most one frame a
    capture. *)
Lemma session_appends (cs : list Call) :
  forall w,
    forallb (fun c => negb (is_clear c)) cs = true ->
    exists fs,
      frames (self (session w cs)) = frames (self w) ++ fs
      /\ (List.length fs <= List.length (filter is_capture cs))%nat.
Proof.
  induction cs as [|c cs IH]; intros w Hnc.
  - exists []. split; [now rewrite app_nil_r|cbn; lia].
  - cbn [forallb] in Hnc. apply andb_prop in Hnc as [Hc Hcs].
    rewrite session_cons. destruct (IH (after w c) Hcs) as (fs & Hfs & Hlen).
    destruct (after_self w c) as (_ & _ & _ & Hframes).
    destruct c as [bg | agents | filename fps | filename fps | |];
      try discriminate; cbn [filter is_capture];
      try (exists fs; split; [now rewrite Hfs, Hframes|exact Hlen]).
    destruct Hframes as [Hsame | (frame & _ & Hadd)].
    + exists fs. split; [now rewrite Hfs, Hsame|cbn; lia].
    + exists (frame :: fs). split; [|cbn; lia].
      now rewrite Hfs, Hadd, <- app_assoc.
Qed.

(** The registry of figures and the list of files only grow. *)
Lemma session_surroundings (cs : list Call) :
  forall w,
    exists figs written,
      open_figures (session w cs) = open_figures w ++ figs
      /\ (List.length figs <= List.length (filter is_capture cs))%nat
      /\ files (session w cs) = files w ++ written
      /\ Forall (fun entry => fst (snd entry) <> []) written.
Proof.
  induction cs as [|c cs IH]; intros w.
  - exists [], []. rewrite !app_nil_r. repeat split; [cbn; lia|constructor].
  - rewrite session_cons.
    destruct (IH (after w c)) as (figs & written & Hfigs & Hlen & Hfiles & Hne).
    destruct (after_surroundings w c) as [Hopen Hwritten].
    assert (exists figs0,
               open_figures (after w c) = open_figures w ++ figs0
               /\ (List.length figs0 <= if is_capture c then 1 else 0)%nat)
      as (figs0 & Hfigs0 & Hlen0).
    { destruct Hopen as [-> | [Hcap ->]].
      - exists []. rewrite app_nil_r. split; [reflexivity|]. cbn. lia.
      - eexists. split; [reflexivity|]. rewrite Hcap. cbn. lia. }
    assert (exists written0,
               files (after w c) = files w ++ written0
               /\ Forall (fun entry => fst (snd entry) <> []) written0)
      as (written0 & Hwritten0 & Hne0).
    { destruct Hwritten as [-> | (filename & fps & Hfs & ->)].
      - exists []. rewrite app_nil_r. split; [reflexivity|constructor].
      - eexists. split; [reflexivity|]. constructor; [exact Hfs|constructor]. }
    exists (figs0 ++ figs), (written0 ++ written).
    rewrite Hfigs, Hfigs0, Hfiles, Hwritten0, <- !app_assoc.
    repeat split.
    + rewrite length_app. cbn [filter].
      destruct (is_capture c); cbn [List.length]; lia.
    + apply Forall_app. now split.
Qed.

End SessionTraces.

(** X10.  Every frame in the buffer has the same shape, whatever the calls
    that were made: no method changes the world's width, height or density,
    and each frame a capture appends has the rows, columns and three
    channels these give, with data that fill that shape.  This holds for
    any sequence of calls in any order, also when some of them raise; a new
    recorder starts with an empty buffer. *)
Theorem X10_frames_share_shape `{Runtime} `{Backend} :
  (forall (w : World) (cs : list Call),
      Forall (well_shaped (self w)) (frames (self w)) ->
      width (self (session w cs)) = width (self w)
      /\ height (self (session w cs)) = height (self w)
      /\ ppm (self (session w cs)) = ppm (self w)
      /\ Forall (well_shaped (self w)) (frames (self (session w cs))))
  /\ (forall (width0 height0 : float) (ppm0 : Z) (figs : list nat) (cs : list Call)
             (frame frame' : Np.ndarray),
         let w := {| self := init width0 height0 ppm0; open_figures := figs;
                     stdout := []; files := [] |} in
         In frame (frames (self (session w cs))) ->
         In frame' (frames (self (session w cs))) ->
         Np.shape frame = Np.shape frame'
         /\ List.length (Np.data frame) = Np.size_of (Np.shape frame)).
Proof.
  split.
  - intros w cs Hall.
    destruct (session_geometry cs w) as (Hw & Hh & Hp).
    repeat split; try assumption. now apply session_well_shaped.
  - intros width0 height0 ppm0 figs cs frame frame' w Hin Hin'.
    assert (Forall (well_shaped (self w)) (frames (self (session w cs)))) as Hall
        by (apply session_well_shaped; constructor).
    rewrite Forall_forall in Hall.
    destruct (Hall _ Hin) as [Hs Hd]. destruct (Hall _ Hin') as [Hs' _].
    split; [congruence|exact Hd].
Qed.

Lemma X10_frames_share_shape_witness :
  Forall (@well_shaped Ideal.backend (self Demo.small_world))
    (frames (self Demo.small_world))
  /\ Forall (@well_shaped Ideal.backend (self Demo.small_world))
       (frames (self (@session Ideal.runtime Ideal.backend Demo.small_world
                        [UpdateAgents Demo.road; Close; SaveVideo "a.mp4" 10;
                         UpdateAgents [Demo.bright_disk]; UpdateAgents [Demo.disk]]))).
Proof.
  split; [constructor|].
  apply (proj1 (@X10_frames_share_shape Ideal.runtime Ideal.backend)).
  constructor.
Defined.

(** X11.  The buffer is append-only: in a sequence of calls without
    [clear_frames] the frames that were in the buffer stay, in place and in
    order, and at most one frame is added for each call of [update_agents].
    After a [clear_frames] the buffer holds at most as many frames as
    captures were made since. *)
Theorem X11_append_only `{Runtime} `{Backend} :
  (forall (w : World) (cs : list Call),
      forallb (fun c => negb (is_clear c)) cs = true ->
      exists fs,
        frames (self (session w cs)) = frames (self w) ++ fs
        /\ (List.length fs <= List.length (filter is_capture cs))%nat)
  /\ (forall (w : World) (before since : list Call),
         forallb (fun c => negb (is_clear c)) since = true ->
         (List.length (frames (self (session w (before ++ ClearFrames :: since))))
          <= List.length (filter is_capture since))%nat).
Proof.
  split.
  - intros w cs. apply session_appends.
  - intros w before since Hnc.
    rewrite session_app, session_cons.
    destruct (session_appends since (after (session w before) ClearFrames) Hnc)
      as (fs & -> & Hlen).
    destruct (after_self (session w before) ClearFrames) as (_ & _ & _ & ->).
    exact Hlen.
Qed.

Lemma X11_append_only_witness :
  forallb (fun c => negb (is_clear c))
    [UpdateAgents Demo.road; SaveGif "a.gif" 5; Close] = true
  /\ exists fs,
      frames (self (@session Ideal.runtime Ideal.backend Demo.after_two_captures
                      [UpdateAgents Demo.road; SaveGif "a.gif" 5; Close]))
      = frames (self Demo.after_two_captures) ++ fs
      /\ (List.length fs
          <= List.length (filter is_capture
                            [UpdateAgents Demo.road; SaveGif "a.gif" 5; Close]))%nat.
Proof.
  split; [reflexivity|].
  apply (proj1 (@X11_append_only Ideal.runtime Ideal.backend)). reflexivity.
Defined.

(** X12.  Over any sequence of calls the recorder never closes a figure it
    did not open and never removes or rewrites a file record: the figures
    open before stay open, at most one more is left open for each call of
    [update_agents], and every file written was encoded from a buffer that
    was not empty. *)
Theorem X12_figures_and_files `{Runtime} `{Backend} (w : World) (cs : list Call) :
  exists (figs : list nat) (written : list (string * (list Np.ndarray * Z))),
    open_figures (session w cs) = open_figures w ++ figs
    /\ (List.length figs <= List.length (filter is_capture cs))%nat
    /\ files (session w cs) = files w ++ written
    /\ Forall (fun entry => fst (snd entry) <> []) written.
Proof. apply session_surroundings. Qed.

(* ===================================================================== *)
(** * Recording and saving *)
(* ===================================================================== *)

(** X13.  Recording then saving: after k captures that return on an empty
    buffer, k at least 1, a save that the encoder accepts writes one file
    from exactly those k frames at the given rate and prints
    "Saved k frames to" and the path; the buffer and the open figures are
    as before the save. *)
Theorem X13_record_then_save `{Runtime} `{Backend}
        (steps : list (list Entity)) (w w1 : World) (filename : string) (fps : Z) :
  frames (self w) = [] ->
  steps <> [] ->
  captures steps w = (Ok tt, w1) ->
  mimsave_ok filename (frames (self w1)) fps = true ->
  List.length (frames (self w1)) = List.length steps
  /\ save_video filename fps w1
     = (Ok tt,
        {| self := self w1;
           open_figures := open_figures w;
           stdout := stdout w
                     ++ [("Saved " ++ Str.decimal (Z.of_nat (List.length steps))
                          ++ " frames to " ++ filename)%string];
           files := files w ++ [(filename, (frames (self w1), fps))] |}).
Proof.
  intros Hempty Hsteps Hrun Hok.
  apply captures_ok in Hrun as (fs & Hfs & ->).
  pose proof (Forall2_length Hfs) as Hlen.
  cbn [with_self with_frames self frames] in *. rewrite Hempty in *. cbn [app] in *.
  split; [now symmetry|].
  rewrite save_video_run. cbn [with_self with_frames self frames open_figures stdout files].
  destruct fs as [|f fs]; [destruct steps; [contradiction|discriminate]|].
  rewrite Hok, Hlen. reflexivity.
Qed.

Lemma X13_record_then_save_witness :
  frames (self Demo.small_world) = []
  /\ [Demo.road; Demo.road] <> []
  /\ @captures Ideal.runtime Ideal.backend [Demo.road; Demo.road] Demo.small_world
     = (Ok tt, Demo.after_two_captures)
  /\ Ideal.writable "rollout.mp4" (frames (self Demo.after_two_captures)) 10 = true
  /\ List.length (frames (self Demo.after_two_captures)) = 2%nat.
Proof.
  split; [reflexivity|]. split; [discriminate|].
  split; [vm_compute; reflexivity|]. split; [vm_compute; reflexivity|].
  apply (proj1 (@X13_record_then_save Ideal.runtime Ideal.backend
                  [Demo.road; Demo.road] Demo.small_world Demo.after_two_captures
                  "rollout.mp4" 10 eq_refl ltac:(discriminate)
                  ltac:(vm_compute; reflexivity) ltac:(vm_compute; reflexivity))).
Defined.

(** X14.  Saving does not consume the buffer.  With frames in the buffer, a
    save the encoder refuses raises and changes nothing, printing nothing;
    and a [save_video] followed by a [save_gif], both accepted, write two
    files from the same frames and leave the recorder as it was. *)
Theorem X14_save_is_repeatable `{Backend} (w : World) :
  frames (self w) <> [] ->
  (forall filename fps,
      mimsave_ok filename (frames (self w)) fps = false ->
      save_video filename fps w = (Raise BackendError, w)
      /\ save_gif filename fps w = (Raise BackendError, w))
  /\ (forall video gif fps fps',
         mimsave_ok video (frames (self w)) fps = true ->
         mimsave_ok gif (frames (self w)) fps' = true ->
         exists w',
           (save_video video fps ;;; save_gif gif fps')%M w = (Ok tt, w')
           /\ self w' = self w
           /\ open_figures w' = open_figures w
           /\ files w'
              = files w ++ [(video, (frames (self w), fps));
                            (gif, (frames (self w), fps'))]).
Proof.
  intros Hne. split.
  - intros filename fps Hno.
    change (save_gif filename fps w) with (save_video filename fps w).
    rewrite save_video_run.
    destruct (frames (self w)) as [|f fs]; [contradiction|]. now rewrite Hno.
  - intros video gif fps fps' Hv Hg. unfold bind.
    rewrite save_video_run.
    destruct (frames (self w)) as [|f fs] eqn:Hfs; [contradiction|].
    rewrite Hv.
    match goal with
    | |- context [save_gif gif fps' ?w1] =>
        change (save_gif gif fps' w1) with (save_video gif fps' w1)
    end.
    rewrite save_video_run. cbn [self].
    rewrite Hfs, Hg. eexists. split; [reflexivity|].
    cbn [self open_figures files]. rewrite <- app_assoc. repeat split.
Qed.

Lemma X14_save_is_repeatable_witness :
  frames (self Demo.after_two_captures) <> []
  /\ Ideal.writable "rollout.txt" (frames (self Demo.after_two_captures)) 10 = false
  /\ @save_video Ideal.backend "rollout.txt" 10 Demo.after_two_captures
     = (Raise BackendError, Demo.after_two_captures).
Proof.
  assert (frames (self Demo.after_two_captures) <> []) as Hne
      by (vm_compute; discriminate).
  split; [exact Hne|]. split; [vm_compute; reflexivity|].
  apply (proj1 (@X14_save_is_repeatable Ideal.backend Demo.after_two_captures Hne)
           "rollout.txt" 10).
  vm_compute. reflexivity.
Defined.

(* ===================================================================== *)
(** * Failures before and at the background *)
(* ===================================================================== *)

(** X16.  For a recorder whose width and height are floats, as their
    annotations say, a density too large for a float stops the capture at
    once: [self.width * self.ppm] has to convert the density and raises
    OverflowError before any figure is asked for, and the world is exactly
    as it was, with no figure left open.  (With an int for the width the
    product is exact and this does not apply.) *)
Theorem X16_density_overflow `{Runtime} `{Backend} (agents : list Entity) (w : World) :
  Float64.overflow_threshold <= Z.abs (ppm (self w)) ->
  update_agents agents w = (Raise OverflowError, w).
Proof.
  intros Hbig. rewrite update_agents_run.
  assert (forall extent, inches extent (ppm (self w)) = Raise OverflowError) as Hin.
  { intros extent. unfold inches, Float64.mul_int, Float64.of_int.
    destruct (Z.leb_spec Float64.overflow_threshold (Z.abs (ppm (self w))));
      [reflexivity|lia]. }
  unfold frame_of, figure_of, figure_created. now rewrite !Hin.
Qed.

Lemma X16_density_overflow_witness :
  Float64.overflow_threshold <= Z.abs (2 ^ 1024)
  /\ @update_agents Ideal.runtime Ideal.backend Demo.road
       (Demo.world_of (init (Demo.F 4) (Demo.F 4) (2 ^ 1024)))
     = (Raise OverflowError, Demo.world_of (init (Demo.F 4) (Demo.F 4) (2 ^ 1024))).
Proof.
  split; [discriminate|].
  apply (@X16_density_overflow Ideal.runtime Ideal.backend Demo.road
           (Demo.world_of (init (Demo.F 4) (Demo.F 4) (2 ^ 1024)))).
  discriminate.
Defined.

(** X17.  A background colour that the backend does not know makes every
    capture fail, whatever the agents: [ax.set_facecolor] raises ValueError
    after the figure was created, no frame is stored and the figure is left
    open. *)
Theorem X17_unknown_background `{Runtime} `{Backend}
        (agents : list Entity) (w : World) (bg : mpl_color) :
  figure_created (self w) = true ->
  Float64.is_finite (width (self w)) = true ->
  Float64.is_finite (height (self w)) = true ->
  convert_tk_color
    (match bg_color (self w) with Some c => c | None => Some "gray" end) = Ok bg ->
  to_rgba bg = None ->
  update_agents agents w
  = (Raise ValueError,
     with_open_figures w (open_figures w ++ [S (list_max (open_figures w))])).
Proof.
  intros Hfig Hw Hh Hbg Hno. rewrite update_agents_run, Hfig.
  unfold frame_of, figure_of. unfold figure_created in Hfig.
  destruct (inches (width (self w)) (ppm (self w))) as [fw|]; [|discriminate].
  destruct (inches (height (self w)) (ppm (self w))) as [fh|]; [|discriminate].
  cbn [rbind]. rewrite Hfig. cbn [raise_unless rbind].
  unfold compose_figure, Mpl.set_xlim, Mpl.set_ylim, Mpl.set_facecolor.
  change (Float64.is_finite (Float64.of_Z 0)) with true.
  rewrite Hw, Hh, Hbg. cbn [andb rbind]. now rewrite Hno.
Qed.

Lemma X17_unknown_background_witness :
  figure_created (self (windowed Demo.small_world (Some "no such colour"))) = true
  /\ Ideal.resolve (Named "no such colour") = None
  /\ @update_agents Ideal.runtime Ideal.backend []
       (windowed Demo.small_world (Some "no such colour"))
     = (Raise ValueError,
        with_open_figures (windowed Demo.small_world (Some "no such colour")) [1%nat]).
Proof.
  split; [vm_compute; reflexivity|]. split; [reflexivity|].
  apply (@X17_unknown_background Ideal.runtime Ideal.backend []
           (windowed Demo.small_world (Some "no such colour")) (Named "no such colour"));
    vm_compute; reflexivity.
Defined.
